(** * Passport photo layout generator: a shallow embedding and its properties

    The repository holds two versions of one straight-line image pipeline
    (crop, resize, frame, tile, annotate, export):

    - [generate_passport_layout.py]     (variant A, 2 rows x 3 columns,
                                         evenly spread, solid guidelines);
    - [generate_passport_layout_v2.py]  (variant B, 3 rows x 2 columns,
                                         centred block, dotted guidelines).

    Python [int] is [Z]; Python [float] is IEEE 754 binary64, taken from the
    standard library's [SpecFloat] with [prec = 53] and [emax = 1024];
    exceptions are an error monad; the file system and the standard output
    are an explicit world threaded through the program; the sheet that the
    photos are pasted on is the list of operations applied to it. *)

From Stdlib Require Import ZArith Lia Bool List.
From Stdlib Require Import Floats.SpecFloat.
From stdpp Require Import gmap strings.

Local Open Scope Z_scope.

(** ** Exceptions and the error monad *)

Inductive exn : Type :=
  | ZeroDivisionError
  | OverflowError
  | ValueError
  | FileNotFoundError
  | OSError.

Inductive result (A : Type) : Type :=
  | Ok (a : A)
  | Raise (e : exn).
Arguments Ok {A} a.
Arguments Raise {A} e.

#[global] Instance result_ret : MRet result := fun A a => Ok a.

#[global] Instance result_bind : MBind result := fun A B k m =>
  match m with
  | Ok a => k a
  | Raise e => Raise e
  end.

(** A [for] loop whose body may raise: the state is threaded from one
    iteration to the next and the first exception ends the loop. *)
Fixpoint for_each {A S : Type} (l : list A) (body : A -> S -> result S) (s : S)
  : result S :=
  match l with
  | [] => Ok s
  | a :: l' => s' ← body a s; for_each l' body s'
  end.

(** [range(n)]. *)
Definition range (n : Z) : list Z := seqZ 0 n.

(** ** Python floats *)

Module PyFloat.

Definition prec : Z := 53.
Definition emax : Z := 1024.

Definition float : Type := spec_float.

Definition is_finite (x : float) : bool :=
  match x with
  | S754_zero _ | S754_finite _ _ _ => true
  | _ => false
  end.

(** [float(n)] for an [int]: round to nearest even, [OverflowError] when the
    integer is too large. *)
Definition of_int (n : Z) : result float :=
  let x := binary_normalize prec emax n 0 false in
  if is_finite x then Ok x else Raise OverflowError.

(** [a / b] on two [int]s: the correctly rounded quotient of the exact
    integers. *)
Definition int_truediv (a b : Z) : result float :=
  match a, b with
  | _, Z0 => Raise ZeroDivisionError
  | Z0, _ => Ok (S754_zero (b <? 0))
  | _, _ =>
      let x := SFdiv prec emax
                 (S754_finite (a <? 0) (Z.to_pos (Z.abs a)) 0)
                 (S754_finite (b <? 0) (Z.to_pos (Z.abs b)) 0) in
      if is_finite x then Ok x else Raise OverflowError
  end.

Definition mul (x y : float) : float := SFmul prec emax x y.
Definition add (x y : float) : float := SFadd prec emax x y.

(** [x / y] on floats raises on a zero divisor. *)
Definition truediv (x y : float) : result float :=
  match y with
  | S754_zero _ => Raise ZeroDivisionError
  | _ => Ok (SFdiv prec emax x y)
  end.

(** [x > y]. *)
Definition gt (x y : float) : bool := SFltb y x.

(** [int(x)]: truncation toward zero. *)
Definition to_int (x : float) : result Z :=
  match x with
  | S754_zero _ => Ok 0
  | S754_finite s m e =>
      let a := match e with
               | Zneg p => Z.pos m / 2 ^ Z.pos p
               | _ => Z.pos m * 2 ^ e
               end in
      Ok (if s then - a else a)
  | S754_infinity _ => Raise OverflowError
  | S754_nan => Raise ValueError
  end.

(** [x ** 0.5] for a float [x >= 0]: the C library's [pow(x, 0.5)], taken
    as the correctly rounded square root. *)
Definition pow_half (x : float) : float := SFsqrt prec emax x.

(** The literal [0.5]. *)
Definition half : float := S754_finite false 4503599627370496 (-53).

End PyFloat.

(** ** Images *)

Definition RGB : Type := (Z * Z * Z)%type.
Definition white : RGB := (255, 255, 255).
Definition black : RGB := (0, 0, 0).

Record Image : Type := mkImage {
  width : Z;
  height : Z;
  getpixel : Z -> Z -> RGB
}.

Definition img_size (img : Image) : Z * Z := (width img, height img).

(** [Image.new("RGB", size, "white")]. *)
Definition Image_new (sz : Z * Z) (color : RGB) : Image :=
  mkImage (fst sz) (snd sz) (fun _ _ => color).

(** [img.crop((left, upper, right, lower))]: the result has the size of the
    box; pixels outside the source are black. *)
Definition crop (img : Image) (box : Z * Z * Z * Z) : Image :=
  let '(x0, y0, x1, y1) := box in
  mkImage (x1 - x0) (y1 - y0)
    (fun x y =>
       let sx := x + x0 in
       let sy := y + y0 in
       if (0 <=? sx) && (sx <? width img) && (0 <=? sy) && (sy <? height img)
       then getpixel img sx sy else black).

(** A resampling filter gives the pixels of the resized image. *)
Definition Resampling : Type := Image -> Z * Z -> Z -> Z -> RGB.

(** [img.resize(size, resample)]. *)
Definition resize (img : Image) (sz : Z * Z) (resample : Resampling) : Image :=
  mkImage (fst sz) (snd sz) (resample img sz).

(** [im.paste(src, (x, y))] on a plain image: the pixels of [src] replace
    those of [im] in the rectangle that starts at [(x, y)]. *)
Definition paste (im src : Image) (xy : Z * Z) : Image :=
  let '(x0, y0) := xy in
  mkImage (width im) (height im)
    (fun x y =>
       if (x0 <=? x) && (x <? x0 + width src) && (y0 <=? y) && (y <? y0 + height src)
       then getpixel src (x - x0) (y - y0) else getpixel im x y).

(** ** Rectangles *)

Definition Box : Type := (Z * Z * Z * Z)%type.

Definition box_width (b : Box) : Z := let '(x0, _, x1, _) := b in x1 - x0.
Definition box_height (b : Box) : Z := let '(_, y0, _, y1) := b in y1 - y0.

(** The box lies inside an image of the given size. *)
Definition box_inside (sz : Z * Z) (b : Box) : bool :=
  let '(x0, y0, x1, y1) := b in
  (0 <=? x0) && (0 <=? y0) && (x1 <=? fst sz) && (y1 <=? snd sz).

(** Two boxes share a pixel. *)
Definition boxes_overlap (a b : Box) : bool :=
  let '(ax0, ay0, ax1, ay1) := a in
  let '(bx0, by0, bx1, by1) := b in
  (ax0 <? bx1) && (bx0 <? ax1) && (ay0 <? by1) && (by0 <? ay1).

Fixpoint pairwise_disjoint (l : list Box) : bool :=
  match l with
  | [] => true
  | b :: l' => forallb (fun b' => negb (boxes_overlap b b')) l' && pairwise_disjoint l'
  end.

(** ** The sheet: a blank image and the operations applied to it *)

Inductive Color : Type :=
  | ColorName (name : string)
  | ColorRGB (c : RGB).

Inductive Op : Type :=
  | OpPaste (im : Image) (xy : Z * Z)
  | OpLine (start_pos end_pos : PyFloat.float * PyFloat.float) (fill : Color) (line_width : Z)
  | OpRectangle (xy : Box) (outline : Color) (line_width : Z).

Record Sheet : Type := mkSheet {
  sheet_size : Z * Z;
  sheet_color : RGB;
  sheet_ops : list Op
}.

Definition Sheet_new (sz : Z * Z) (color : RGB) : Sheet := mkSheet sz color [].

Definition apply_op (op : Op) (s : Sheet) : Sheet :=
  mkSheet (sheet_size s) (sheet_color s) (sheet_ops s ++ [op]).

(** [layout.paste(im, (x, y))]. *)
Definition Sheet_paste (s : Sheet) (im : Image) (xy : Z * Z) : Sheet :=
  apply_op (OpPaste im xy) s.

(** The rectangles covered by the pasted images, in pasting order. *)
Definition pasted_boxes (s : Sheet) : list Box :=
  flat_map (fun op =>
              match op with
              | OpPaste im (x, y) => [(x, y, x + width im, y + height im)]
              | _ => []
              end) (sheet_ops s).

Definition is_line (op : Op) : bool :=
  match op with
  | OpLine _ _ _ _ => true
  | _ => false
  end.

(** ** Aspect-ratio centre crop

    [crop_box] holds the statements of [crop_image_to_aspect_ratio] up to
    the call of [img.crop]; variant A runs the same statements inline. *)

Definition crop_box (img_width img_height : Z) (aspect_target : PyFloat.float)
  : result Box :=
  img_aspect ← PyFloat.int_truediv img_width img_height;
  if PyFloat.gt img_aspect aspect_target then
    hf ← PyFloat.of_int img_height;
    new_width ← PyFloat.to_int (PyFloat.mul hf aspect_target);
    let left := (img_width - new_width) / 2 in
    Ok (left, 0, left + new_width, img_height)
  else
    wf ← PyFloat.of_int img_width;
    q ← PyFloat.truediv wf aspect_target;
    new_height ← PyFloat.to_int q;
    let top := (img_height - new_height) / 2 in
    Ok (0, top, img_width, top + new_height).

Definition crop_image_to_aspect_ratio (img : Image) (aspect_target : PyFloat.float)
  : result Image :=
  box ← crop_box (width img) (height img) aspect_target;
  Ok (crop img box).

(** The crop box in integer arithmetic alone, for the ratio 413 / 531 = 7 / 9:
    what [crop_box] is shown to compute on image dimensions. *)
Definition crop_box_exact (img_width img_height : Z) : Box :=
  if 7 * img_height <? 9 * img_width then
    let new_width := 7 * img_height / 9 in
    let left := (img_width - new_width) / 2 in
    (left, 0, left + new_width, img_height)
  else
    let new_height := 9 * img_width / 7 in
    let top := (img_height - new_height) / 2 in
    (0, top, img_width, top + new_height).

(** Image dimensions are C [int]s in the imaging library. *)
Definition dimension (n : Z) : Prop := 0 < n < 2 ^ 31.

(** ** Dotted guidelines *)

(** [num_dots] of [draw_dotted_line]. *)
Definition num_dots (start_xy end_xy : Z * Z) (width gap : Z) : result Z :=
  let dist_x := fst end_xy - fst start_xy in
  let dist_y := snd end_xy - snd start_xy in
  sq ← PyFloat.of_int (dist_x ^ 2 + dist_y ^ 2);
  let length := PyFloat.pow_half sq in
  step ← PyFloat.of_int (width + gap);
  q ← PyFloat.truediv length step;
  PyFloat.to_int q.

(** [start + (dist * i / num_dots)]. *)
Definition dash_start (start dist i n : Z) : result PyFloat.float :=
  q ← PyFloat.int_truediv (dist * i) n;
  s ← PyFloat.of_int start;
  Ok (PyFloat.add s q).

(** [start + (dist * (i + 0.5) / num_dots)]. *)
Definition dash_end (start dist i n : Z) : result PyFloat.float :=
  fi ← PyFloat.of_int i;
  fd ← PyFloat.of_int dist;
  fn ← PyFloat.of_int n;
  q ← PyFloat.truediv (PyFloat.mul fd (PyFloat.add fi PyFloat.half)) fn;
  s ← PyFloat.of_int start;
  Ok (PyFloat.add s q).

Definition draw_dotted_line (draw : Sheet) (start_xy end_xy : Z * Z)
    (fill : Color) (width gap : Z) : result Sheet :=
  let dist_x := fst end_xy - fst start_xy in
  let dist_y := snd end_xy - snd start_xy in
  n ← num_dots start_xy end_xy width gap;
  for_each (range n)
    (fun i draw =>
       x0 ← dash_start (fst start_xy) dist_x i n;
       y0 ← dash_start (snd start_xy) dist_y i n;
       x1 ← dash_end (fst start_xy) dist_x i n;
       y1 ← dash_end (snd start_xy) dist_y i n;
       Ok (apply_op (OpLine (x0, y0) (x1, y1) fill width) draw))
    draw.

Definition draw_dotted_rectangle (draw : Sheet) (xy : Box)
    (outline : Color) (width gap : Z) : result Sheet :=
  let '(x0, y0, x1, y1) := xy in
  draw ← draw_dotted_line draw (x0, y0) (x1, y0) outline width gap;
  draw ← draw_dotted_line draw (x1, y0) (x1, y1) outline width gap;
  draw ← draw_dotted_line draw (x1, y1) (x0, y1) outline width gap;
  draw_dotted_line draw (x0, y1) (x0, y0) outline width gap.

(** ** The world: files and standard output *)

Inductive File : Type :=
  | ImageFile (img : Image)
  | PdfFile (pages : list Sheet) (resolution : PyFloat.float)
  | OtherFile.

Record World : Type := mkWorld {
  files : gmap string File;
  writable : string -> bool;
  stdout : list string
}.

Inductive Outcome : Type :=
  | Returned
  | SystemExit (code : Z)
  | Uncaught (e : exn).

(** The exit status of the process. *)
Definition exit_status (o : Outcome) : Z :=
  match o with
  | Returned => 0
  | SystemExit code => code
  | Uncaught _ => 1
  end.

Definition print (w : World) (line : string) : World :=
  mkWorld (files w) (writable w) (stdout w ++ [line]).

(** [Image.open(path)]. *)
Definition Image_open (w : World) (path : string) : result Image :=
  match files w !! path with
  | None => Raise FileNotFoundError
  | Some (ImageFile img) => Ok img
  | Some _ => Raise OSError
  end.

(** [layout.save(path, "PDF", resolution=...)]: one page. *)
Definition Sheet_save (w : World) (layout : Sheet) (path : string)
    (resolution : PyFloat.float) : result World :=
  if writable w path
  then Ok (mkWorld (<[path := PdfFile [layout] resolution]> (files w)) (writable w) (stdout w))
  else Raise OSError.

Definition exn_name (e : exn) : string :=
  match e with
  | ZeroDivisionError => "ZeroDivisionError"
  | OverflowError => "OverflowError"
  | ValueError => "ValueError"
  | FileNotFoundError => "FileNotFoundError"
  | OSError => "OSError"
  end.

(** ** Variant B: [generate_passport_layout_v2.py] *)

Module VariantB.

Definition PASSPORT_PHOTO_PX : Z * Z := (413, 531).

(** [PASSPORT_PHOTO_PX[0] / PASSPORT_PHOTO_PX[1]]. *)
Definition ASPECT_RATIO : PyFloat.float :=
  S754_finite false 7005599420354105 (-53).

Definition LAYOUT_PX : Z * Z := (1200, 1800).

(** [300.0]. *)
Definition PDF_RESOLUTION : PyFloat.float :=
  S754_finite false 5277655813324800 (-44).

Definition GRID_ROWS : Z := 3.
Definition GRID_COLS : Z := 2.
Definition PHOTO_BORDER_PX : Z := 20.
Definition GUIDELINE_COLOR : Color := ColorName "grey".
Definition GUIDELINE_WIDTH : Z := 2.
Definition DOTTED_LINE_GAP : Z := 10.

Definition final_photo_size : Z * Z :=
  (fst PASSPORT_PHOTO_PX + 2 * PHOTO_BORDER_PX,
   snd PASSPORT_PHOTO_PX + 2 * PHOTO_BORDER_PX).

Definition frame (resized_img : Image) : Image :=
  paste (Image_new final_photo_size white) resized_img
        (PHOTO_BORDER_PX, PHOTO_BORDER_PX).

Definition block_width : Z := GRID_COLS * fst final_photo_size.
Definition block_height : Z := GRID_ROWS * snd final_photo_size.
Definition start_x : Z := (fst LAYOUT_PX - block_width) / 2.
Definition start_y : Z := (snd LAYOUT_PX - block_height) / 2.

(** The two nested loops that paste the photos and draw the guidelines. *)
Definition tile (framed_photo : Image) (layout : Sheet) : result Sheet :=
  for_each (range GRID_ROWS)
    (fun row layout =>
       for_each (range GRID_COLS)
         (fun col layout =>
            let x := start_x + col * fst final_photo_size in
            let y := start_y + row * snd final_photo_size in
            let layout := Sheet_paste layout framed_photo (x, y) in
            draw_dotted_rectangle layout
              (x, y, x + fst final_photo_size, y + snd final_photo_size)
              GUIDELINE_COLOR GUIDELINE_WIDTH DOTTED_LINE_GAP)
         layout)
    layout.

Section WithFilter.

Variable LANCZOS : Resampling.

(** From the opened image to the finished sheet. *)
Definition make_layout (source_img : Image) : result Sheet :=
  cropped_img ← crop_image_to_aspect_ratio source_img ASPECT_RATIO;
  let resized_img := resize cropped_img PASSPORT_PHOTO_PX LANCZOS in
  let framed_photo := frame resized_img in
  let layout := Sheet_new LAYOUT_PX white in
  tile framed_photo layout.

Definition create_photo_layout (photo_path output_path : string) (w : World)
  : Outcome * World :=
  match Image_open w photo_path return Outcome * World with
  | Raise FileNotFoundError =>
      (SystemExit 1,
       print w ("❌ Error: Input file not found at '" +:+ photo_path +:+ "'"))
  | Raise e =>
      (SystemExit 1,
       print w ("❌ Error: Could not open image file. Reason: " +:+ exn_name e))
  | Ok source_img =>
      let w := print w "📷 Cropping image to 3.5:4.5 aspect ratio..." in
      match crop_image_to_aspect_ratio source_img ASPECT_RATIO return Outcome * World with
      | Raise e => (Uncaught e, w)
      | Ok cropped_img =>
          let resized_img := resize cropped_img PASSPORT_PHOTO_PX LANCZOS in
          let framed_photo := frame resized_img in
          let layout := Sheet_new LAYOUT_PX white in
          let w := print w "📄 Creating 3x2 layout on a 4x6 inch canvas..." in
          match tile framed_photo layout return Outcome * World with
          | Raise e => (Uncaught e, w)
          | Ok layout =>
              match Sheet_save w layout output_path PDF_RESOLUTION return Outcome * World with
              | Ok w =>
                  (Returned,
                   print w ("✅ Success! Output saved to: " +:+ output_path))
              | Raise e =>
                  (SystemExit 1,
                   print w ("❌ Error: Could not save PDF file. Reason: " +:+ exn_name e))
              end
          end
      end
  end.

End WithFilter.

End VariantB.

(** ** Variant A: [generate_passport_layout.py] *)

Module VariantA.

Definition photo_path : string := "passport_photo.jpg".
Definition output_pdf : string := "passport_layout.pdf".

Definition passport_px : Z * Z := (413, 531).
Definition border : Z := 20.
Definition final_photo_size : Z * Z :=
  (fst passport_px + 2 * border, snd passport_px + 2 * border).

Definition layout_size : Z * Z := (1200, 1800).

(** [passport_px[0] / passport_px[1]]. *)
Definition aspect_target : PyFloat.float :=
  S754_finite false 7005599420354105 (-53).

Definition frame (resized : Image) : Image :=
  paste (Image_new final_photo_size white) resized (border, border).

Definition rows : Z := 2.
Definition cols : Z := 3.
Definition x_spacing : Z := (fst layout_size - cols * fst final_photo_size) / (cols + 1).
Definition y_spacing : Z := (snd layout_size - rows * snd final_photo_size) / (rows + 1).

Definition tile (framed : Image) (layout : Sheet) : Sheet :=
  foldl (fun layout row =>
           foldl (fun layout col =>
                    let x := x_spacing + col * (fst final_photo_size + x_spacing) in
                    let y := y_spacing + row * (snd final_photo_size + y_spacing) in
                    let layout := Sheet_paste layout framed (x, y) in
                    apply_op
                      (OpRectangle
                         (x, y, x + fst final_photo_size, y + snd final_photo_size)
                         (ColorRGB (200, 200, 200)) 2)
                      layout)
                 layout (range cols))
        layout (range rows).

Section WithFilter.

(** The filter that [img.resize(passport_px)] uses by default. *)
Variable default_filter : Resampling.

Definition make_layout (img : Image) : result Sheet :=
  let layout := Sheet_new layout_size white in
  box ← crop_box (width img) (height img) aspect_target;
  let img := crop img box in
  let resized := resize img passport_px default_filter in
  let framed := frame resized in
  Ok (tile framed layout).

(** The script; it catches no exception. *)
Definition script (w : World) : Outcome * World :=
  match Image_open w photo_path return Outcome * World with
  | Raise e => (Uncaught e, w)
  | Ok img =>
      match make_layout img return Outcome * World with
      | Raise e => (Uncaught e, w)
      | Ok layout =>
          match Sheet_save w layout output_pdf VariantB.PDF_RESOLUTION return Outcome * World with
          | Raise e => (Uncaught e, w)
          | Ok w =>
              (Returned,
               print w "✅ Output saved: passport_layout.pdf with 2x3 side-by-side layout.")
          end
      end
  end.

End WithFilter.

End VariantA.

(** ** Rounding, for the proofs about [SpecFloat] *)

(** The location of the rational [N / D] between the integers [N / D]
    (floor) and [N / D + 1]: on the lower one, below the middle, on the
    middle or above it. *)
Definition loc_of (N D : Z) : location :=
  if N mod D =? 0 then loc_Exact else loc_Inexact (2 * (N mod D) ?= D).

(** The integer nearest to [N / D], ties to even. *)
Definition rne (N D : Z) : Z := round_nearest_even (N / D) (loc_of N D).

(** ** The rectangles of the two grids *)

(** The six rectangles of variant B: a centred block of 3 rows and 2
    columns. *)
Definition boxes_B : list Box :=
  [(147, 43, 600, 614); (600, 43, 1053, 614);
   (147, 614, 600, 1185); (600, 614, 1053, 1185);
   (147, 1185, 600, 1756); (600, 1185, 1053, 1756)].

(** The six rectangles of variant A: 2 rows and 3 columns with a spacing of
    [-40] pixels between the columns. *)
Definition boxes_A : list Box :=
  [(-40, 219, 413, 790); (373, 219, 826, 790); (786, 219, 1239, 790);
   (-40, 1009, 413, 1580); (373, 1009, 826, 1580); (786, 1009, 1239, 1580)].

(** ** A world for the end-to-end runs *)

(** A photo of 1000 x 1500 pixels. *)
Definition photo_1000x1500 : Image := Image_new (1000, 1500) black.

(** The photo stored under the name that variant A reads; every path can be
    written. *)
Definition world_with_photo : World :=
  mkWorld {[ VariantA.photo_path := ImageFile photo_1000x1500 ]} (fun _ => true) [].

(** A world without any file. *)
Definition empty_world : World := mkWorld ∅ (fun _ => true) [].

(** ** Reading a sheet *)

(** The images pasted on a sheet with their positions, in pasting order. *)
Definition pasted_images (s : Sheet) : list (Image * (Z * Z)) :=
  flat_map (fun op =>
              match op with
              | OpPaste im xy => [(im, xy)]
              | _ => []
              end) (sheet_ops s).

(** The dashes drawn on a sheet. *)
Definition drawn_lines (s : Sheet) : list Op := filter (fun op => is_line op = true) (sheet_ops s).

(** The six positions of variant B. *)
Definition positions_B : list (Z * Z) :=
  [(147, 43); (600, 43); (147, 614); (600, 614); (147, 1185); (600, 1185)].

(** * Properties *)

(** ** Binary64 rounding

    The operations of [SpecFloat] on positive operands, read on the integers:
    a shift to the right keeps the location of the exact value, the rounded
    mantissa is the nearest integer, and the result of a multiplication or a
    division is a mantissa of 53 digits next to the exact value. *)

Lemma digits2_pos_bounds (p : positive) :
  2 ^ (Z.pos (digits2_pos p) - 1) <= Z.pos p < 2 ^ Z.pos (digits2_pos p).
Proof.
  induction p as [p IH | p IH | ]; cbn [digits2_pos].
  - rewrite Pos2Z.inj_succ.
    replace (Z.succ (Z.pos (digits2_pos p)) - 1) with (Z.succ (Z.pos (digits2_pos p) - 1)) by lia.
    rewrite !Z.pow_succ_r by lia. lia.
  - rewrite Pos2Z.inj_succ.
    replace (Z.succ (Z.pos (digits2_pos p)) - 1) with (Z.succ (Z.pos (digits2_pos p) - 1)) by lia.
    rewrite !Z.pow_succ_r by lia. lia.
  - simpl. lia.
Qed.

(** A number with [d] digits. *)
Lemma digits2_pos_unique (p : positive) (d : Z) :
  2 ^ (d - 1) <= Z.pos p < 2 ^ d -> Z.pos (digits2_pos p) = d.
Proof.
  intros [Hlo Hhi].
  pose proof (digits2_pos_bounds p) as [Blo Bhi].
  set (k := Z.pos (digits2_pos p)) in *.
  assert (0 < d).
  { destruct (Z_lt_le_dec 0 d); [done|].
    assert (2 ^ d <= 2 ^ 0) by (apply Z.pow_le_mono_r; lia).
    simpl in *. lia. }
  destruct (Z_lt_le_dec k d) as [Hlt|Hge].
  - assert (2 ^ k <= 2 ^ (d - 1)) by (apply Z.pow_le_mono_r; lia). lia.
  - destruct (Z_lt_le_dec d k) as [Hlt|Hge']; [|lia].
    assert (2 ^ d <= 2 ^ (k - 1)) by (apply Z.pow_le_mono_r; lia). lia.
Qed.

Lemma shr_m_record_of_loc m l : shr_m (shr_record_of_loc m l) = m.
Proof. by destruct l as [|[]]. Qed.

Lemma loc_of_shr_record_of_loc m l :
  loc_of_shr_record (shr_record_of_loc m l) = l.
Proof. by destruct l as [|[]]. Qed.

Lemma shr_1_nonneg (q : Z) (rb sb : bool) :
  0 <= q ->
  shr_1 (Build_shr_record q rb sb) = Build_shr_record (q / 2) (Z.odd q) (rb || sb).
Proof.
  intros Hq. destruct q as [|q|q]; [done| |lia].
  destruct q as [q|q|]; cbn [shr_1 Z.odd].
  - replace (Z.pos q~1 / 2) with (Z.pos q); [done|].
    rewrite Pos2Z.inj_xI. apply Z.div_unique_pos with (r := 1); lia.
  - replace (Z.pos q~0 / 2) with (Z.pos q); [done|].
    rewrite Pos2Z.inj_xO. apply Z.div_unique_pos with (r := 0); lia.
  - done.
Qed.

Lemma shr_record_of_loc_of (q r D : Z) :
  shr_record_of_loc q (if r =? 0 then loc_Exact else loc_Inexact (2 * r ?= D))
  = Build_shr_record q (negb (r =? 0) && (D <=? 2 * r)) (negb (r =? 0) && negb (D =? 2 * r)).
Proof.
  destruct (r =? 0) eqn:Er; [done|]. cbn [negb andb].
  destruct (Z.compare_spec (2 * r) D) as [E|E|E]; cbn [shr_record_of_loc].
  - f_equal; [symmetry; apply Z.leb_le; lia | symmetry; apply negb_false_iff, Z.eqb_eq; lia].
  - f_equal; [symmetry; apply Z.leb_gt; lia | symmetry; apply negb_true_iff, Z.eqb_neq; lia].
  - f_equal; [symmetry; apply Z.leb_le; lia | symmetry; apply negb_true_iff, Z.eqb_neq; lia].
Qed.

Lemma shr_1_loc (N D : Z) :
  0 <= N -> 0 < D ->
  shr_1 (shr_record_of_loc (N / D) (loc_of N D))
  = shr_record_of_loc (N / (2 * D)) (loc_of N (2 * D)).
Proof.
  intros HN HD.
  assert (Hq : 0 <= N / D) by (apply Z.div_pos; lia).
  pose proof (Z.div_mod N D ltac:(lia)) as E1.
  pose proof (Z.mod_pos_bound N D HD) as B1.
  set (q := N / D) in *. set (r := N mod D) in *.
  pose proof (Z.div_mod q 2 ltac:(lia)) as E3.
  pose proof (Z.mod_pos_bound q 2 ltac:(lia)) as B3.
  assert (E4 : (2 * D) * (q / 2) + ((q mod 2) * D + r) = N) by nia.
  assert (B4 : 0 <= (q mod 2) * D + r < 2 * D) by nia.
  assert (Hq2 : N / (2 * D) = q / 2) by (symmetry; eapply Z.div_unique_pos; eauto).
  assert (Hr2 : N mod (2 * D) = (q mod 2) * D + r) by (symmetry; eapply Z.mod_unique_pos; eauto).
  unfold loc_of. fold r. rewrite Hq2, Hr2, !shr_record_of_loc_of, shr_1_nonneg by done.
  rewrite Zmod_odd in *.
  destruct (Z.odd q); f_equal;
    repeat match goal with
    | |- context [?a =? ?b] => destruct (Z.eqb_spec a b)
    | |- context [?a <=? ?b] => destruct (Z.leb_spec a b)
    end; cbn; try done; lia.
Qed.

Lemma iter_pos_shr_1_loc (p : positive) (N D : Z) :
  0 <= N -> 0 < D ->
  SpecFloat.iter_pos shr_1 p (shr_record_of_loc (N / D) (loc_of N D))
  = shr_record_of_loc (N / (D * 2 ^ Z.pos p)) (loc_of N (D * 2 ^ Z.pos p)).
Proof.
  intros HN. revert D.
  induction p as [p IH | p IH | ]; intros D HD; cbn [SpecFloat.iter_pos].
  - rewrite shr_1_loc, IH, IH by lia.
    replace (2 * D * 2 ^ Z.pos p * 2 ^ Z.pos p) with (D * 2 ^ Z.pos p~1); [done|].
    replace (Z.pos p~1) with (1 + Z.pos p + Z.pos p) by lia.
    rewrite !Z.pow_add_r by lia. change (2 ^ 1) with 2. ring.
  - rewrite IH, IH by lia.
    replace (D * 2 ^ Z.pos p * 2 ^ Z.pos p) with (D * 2 ^ Z.pos p~0); [done|].
    replace (Z.pos p~0) with (Z.pos p + Z.pos p) by lia.
    rewrite !Z.pow_add_r by lia. ring.
  - rewrite shr_1_loc by lia. by replace (D * 2 ^ 1) with (2 * D) by lia.
Qed.

(** Shifting by [n >= 0] digits. *)
Lemma shr_loc (N D e n : Z) :
  0 <= N -> 0 < D -> 0 <= n ->
  shr (shr_record_of_loc (N / D) (loc_of N D)) e n
  = (shr_record_of_loc (N / (D * 2 ^ n)) (loc_of N (D * 2 ^ n)), e + n).
Proof.
  intros HN HD Hn. destruct n as [|p|p]; [| |lia]; cbn [shr].
  - by rewrite Z.pow_0_r, Z.mul_1_r, Z.add_0_r.
  - by rewrite iter_pos_shr_1_loc.
Qed.

Lemma rne_spec (N D : Z) :
  0 < D ->
  rne N D =
    if 2 * (N mod D) <? D then N / D
    else if 2 * (N mod D) =? D then (if Z.even (N / D) then N / D else N / D + 1)
    else N / D + 1.
Proof.
  intros HD. unfold rne, loc_of.
  pose proof (Z.mod_pos_bound N D HD).
  destruct (Z.eqb_spec (N mod D) 0) as [E|E]; cbn [round_nearest_even].
  - rewrite E. by assert ((2 * 0 <? D) = true) as -> by (apply Z.ltb_lt; lia).
  - destruct (Z.compare_spec (2 * (N mod D)) D);
      destruct (Z.ltb_spec (2 * (N mod D)) D); try lia;
      destruct (Z.eqb_spec (2 * (N mod D)) D); try lia; done.
Qed.

Lemma rne_ge (N D z : Z) : 0 < D -> (2 * z - 1) * D < 2 * N -> z <= rne N D.
Proof.
  intros HD H. rewrite rne_spec by done.
  pose proof (Z.div_mod N D ltac:(lia)). pose proof (Z.mod_pos_bound N D HD).
  destruct (Z.ltb_spec (2 * (N mod D)) D); [nia|].
  destruct (Z.eqb_spec (2 * (N mod D)) D); [|nia].
  destruct (Z.even (N / D)); nia.
Qed.

Lemma rne_le (N D z : Z) : 0 < D -> 2 * N < (2 * z + 1) * D -> rne N D <= z.
Proof.
  intros HD H. rewrite rne_spec by done.
  pose proof (Z.div_mod N D ltac:(lia)). pose proof (Z.mod_pos_bound N D HD).
  destruct (Z.ltb_spec (2 * (N mod D)) D); [nia|].
  destruct (Z.eqb_spec (2 * (N mod D)) D); [|nia].
  destruct (Z.even (N / D)); nia.
Qed.

Lemma rne_ge_exact (N D z : Z) : 0 < D -> z * D <= N -> z <= rne N D.
Proof. intros HD H. apply rne_ge; nia. Qed.

Lemma rne_le_exact (N D z : Z) : 0 < D -> N <= z * D -> rne N D <= z.
Proof. intros HD H. apply rne_le; nia. Qed.

Lemma fexp_53 (x : Z) : fexp 53 1024 x = Z.max (x - 53) (-1074).
Proof. reflexivity. Qed.

Lemma Zdigits2_bounds (m : Z) :
  0 < m -> 2 ^ (Zdigits2 m - 1) <= m < 2 ^ Zdigits2 m.
Proof. destruct m; try lia. intros _. apply digits2_pos_bounds. Qed.

Lemma Zdigits2_unique (m d : Z) :
  2 ^ (d - 1) <= m < 2 ^ d -> 0 < m -> Zdigits2 m = d.
Proof. destruct m; try lia. intros ? _. by apply digits2_pos_unique. Qed.

Lemma pow2_pos (n : Z) : 0 <= n -> 0 < 2 ^ n.
Proof. intros. apply Z.pow_pos_nonneg; lia. Qed.

(** Rounding a mantissa of at least 53 digits, above the subnormal range:
    the result holds the mantissa nearest to the exact value, or is infinite
    when the exponent is too large. *)
Lemma binary_round_aux_rounds (sx : bool) (N D e : Z) :
  0 < D -> 2 ^ 52 <= N / D ->
  let n := Zdigits2 (N / D) - 53 in
  -1074 <= e + n ->
  exists m3 e3,
    binary_round_aux 53 1024 sx (N / D) e (loc_of N D)
    = (if e3 <=? 971 then S754_finite sx m3 e3 else S754_infinity sx)
    /\ 2 ^ 52 <= Z.pos m3 < 2 ^ 53
    /\ e + n <= e3 <= e + n + 1
    /\ Z.pos m3 * 2 ^ (e3 - (e + n)) = rne N (D * 2 ^ n).
Proof.
  intros HD Hm n Hlo.
  assert (Hmpos : 0 < N / D) by (change (2 ^ 52) with 4503599627370496 in Hm; lia).
  assert (HN : 0 <= N).
  { destruct (Z_lt_le_dec N 0); [|done].
    assert (N / D < 0) by (apply Z.div_lt_upper_bound; lia). lia. }
  pose proof (Zdigits2_bounds _ Hmpos) as [Dlo Dhi].
  assert (Hn : 0 <= n).
  { unfold n. destruct (Z_lt_le_dec (Zdigits2 (N / D)) 53); [|lia].
    assert (2 ^ Zdigits2 (N / D) <= 2 ^ 52) by (apply Z.pow_le_mono_r; lia). lia. }
  unfold binary_round_aux, shr_fexp.
  rewrite fexp_53.
  replace (Z.max (Zdigits2 (N / D) + e - 53) (-1074) - e) with n by (unfold n; lia).
  rewrite shr_loc by done.
  rewrite shr_m_record_of_loc, loc_of_shr_record_of_loc.
  fold (rne N (D * 2 ^ n)).
  set (D1 := D * 2 ^ n). set (m2 := rne N D1).
  pose proof (pow2_pos n Hn) as Hpn.
  assert (HD1 : 0 < D1) by (unfold D1; nia).
  (* the shifted mantissa has 53 digits *)
  assert (Hm1 : 2 ^ 52 <= N / D1 < 2 ^ 53).
  { unfold D1. rewrite <- Z.div_div by lia.
    replace (Zdigits2 (N / D)) with (n + 53) in Dlo, Dhi by (unfold n; lia).
    replace (n + 53 - 1) with (n + 52) in Dlo by lia.
    rewrite Z.pow_add_r in Dlo, Dhi by lia.
    split.
    - apply Z.div_le_lower_bound; lia.
    - apply Z.div_lt_upper_bound; lia. }
  assert (Hm2 : 2 ^ 52 <= m2 <= 2 ^ 53).
  { pose proof (Z.div_mod N D1 ltac:(lia)). pose proof (Z.mod_pos_bound N D1 HD1).
    split.
    - apply rne_ge_exact; [done|]. nia.
    - apply rne_le_exact; [done|]. nia. }
  change (2 ^ 52) with 4503599627370496 in *.
  change (2 ^ 53) with 9007199254740992 in *.
  change (1024 - 53) with 971.
  destruct (Z_lt_le_dec m2 9007199254740992) as [Hlt|Hge].
  - (* the rounded mantissa still has 53 digits *)
    assert (Hd2 : Zdigits2 m2 = 53).
    { apply Zdigits2_unique; [|lia].
      change (2 ^ (53 - 1)) with 4503599627370496.
      change (2 ^ 53) with 9007199254740992. lia. }
    rewrite Hd2, fexp_53.
    replace (Z.max (53 + (e + n) - 53) (-1074) - (e + n)) with 0 by lia.
    cbn [shr shr_record_of_loc shr_m].
    destruct m2 as [|m2p|m2p] eqn:Em2; [lia| |lia].
    exists m2p, (e + n). split; [done|]. split; [lia|]. split; [lia|].
    by rewrite Z.sub_diag, Z.pow_0_r, Z.mul_1_r.
  - (* rounding has carried into a 54th digit *)
    assert (Em2 : m2 = 9007199254740992) by lia.
    rewrite Em2. change (Zdigits2 9007199254740992) with 54. rewrite fexp_53.
    replace (Z.max (54 + (e + n) - 53) (-1074) - (e + n)) with 1 by lia.
    cbn [shr shr_record_of_loc SpecFloat.iter_pos shr_1 shr_m].
    eexists _, (e + n + 1). split; [done|]. split; [lia|]. split; [lia|].
    replace (e + n + 1 - (e + n)) with 1 by lia. done.
Qed.

Lemma binary_round_aux_normal (N D e : Z) :
  0 < D -> 2 ^ 52 <= N / D ->
  let n := Zdigits2 (N / D) - 53 in
  -1074 <= e + n -> e + n < 971 ->
  exists m3 e3,
    binary_round_aux 53 1024 false (N / D) e (loc_of N D) = S754_finite false m3 e3
    /\ 2 ^ 52 <= Z.pos m3 < 2 ^ 53
    /\ e + n <= e3 <= e + n + 1
    /\ Z.pos m3 * 2 ^ (e3 - (e + n)) = rne N (D * 2 ^ n).
Proof.
  intros HD Hm n Hlo Hhi.
  destruct (binary_round_aux_rounds false N D e HD Hm Hlo)
    as (m3 & e3 & Hr & Hm3 & He3 & Hval).
  exists m3, e3. fold n in He3, Hval. split; [|done].
  rewrite Hr. by assert ((e3 <=? 971) = true) as -> by (apply Z.leb_le; lia).
Qed.

Lemma new_location_loc_of (N D : Z) :
  0 < D -> new_location D (N mod D) = loc_of N D.
Proof.
  intros HD. pose proof (Z.mod_pos_bound N D HD) as B.
  unfold new_location, loc_of.
  change (IntDef.Z.even D) with (Z.even D).
  destruct (Z.even D) eqn:Ev;
    unfold new_location_even, new_location_odd;
    destruct (Z.eqb_spec (N mod D) 0) as [E|E]; try done.
  f_equal.
  assert (Hodd : Z.odd D = true) by (rewrite <- Z.negb_even, Ev; done).
  apply Z.odd_spec in Hodd as [k Hk].
  destruct (Z.compare_spec (2 * (N mod D) + 1) D);
    destruct (Z.compare_spec (2 * (N mod D)) D); try done; lia.
Qed.

Lemma loc_of_1 (N : Z) : loc_of N 1 = loc_Exact.
Proof. unfold loc_of. by rewrite Z.mod_1_r. Qed.

(** Division of two positive finite floats. *)
Lemma SFdiv_pos_finite (m1 m2 : positive) (e1 e2 : Z) :
  let e' := Z.min (fexp 53 1024 (Z.pos (digits2_pos m1) + e1 - (Z.pos (digits2_pos m2) + e2)))
                  (e1 - e2) in
  let N := Z.pos m1 * 2 ^ (e1 - e2 - e') in
  SFdiv 53 1024 (S754_finite false m1 e1) (S754_finite false m2 e2)
  = binary_round_aux 53 1024 false (N / Z.pos m2) e' (loc_of N (Z.pos m2)).
Proof.
  intros e' N. unfold SFdiv, SFdiv_core_binary. cbn [xorb Zdigits2].
  fold e'.
  assert (Hs : 0 <= e1 - e2 - e') by (unfold e'; lia).
  assert (HN : (match e1 - e2 - e' with
                | 0 => Z.pos m1
                | Z.pos _ => Z.shiftl (Z.pos m1) (e1 - e2 - e')
                | Z.neg _ => 0
                end) = N).
  { unfold N. destruct (e1 - e2 - e') as [|p|p] eqn:E; [| |lia].
    - by rewrite Z.pow_0_r, Z.mul_1_r.
    - by rewrite Z.shiftl_mul_pow2 by lia. }
  rewrite HN.
  unfold Z.div, Z.modulo.
  pose proof (new_location_loc_of N (Z.pos m2) ltac:(lia)) as HL.
  unfold Z.modulo in HL.
  destruct (Z.div_eucl N (Z.pos m2)) as [q r]. by rewrite HL.
Qed.

Lemma SFmul_pos_finite (m1 m2 : positive) (e1 e2 : Z) :
  SFmul 53 1024 (S754_finite false m1 e1) (S754_finite false m2 e2)
  = binary_round_aux 53 1024 false (Z.pos (m1 * m2) / 1) (e1 + e2) (loc_of (Z.pos (m1 * m2)) 1).
Proof. by rewrite loc_of_1, Z.div_1_r. Qed.

Lemma Pos_iter_xO (p k : positive) :
  Z.pos (Pos.iter xO p k) = Z.pos p * 2 ^ Z.pos k.
Proof.
  rewrite <- Z.shiftl_mul_pow2 by lia. cbn [Z.shiftl].
  apply Pos.iter_swap_gen. intros a. by rewrite Pos2Z.inj_xO.
Qed.

(** [float(n)] for an integer that fits the mantissa is exact and normal. *)
Lemma binary_normalize_small (n : Z) :
  0 < n < 2 ^ 53 ->
  let d := Zdigits2 n in
  binary_normalize 53 1024 n 0 false
  = S754_finite false (Z.to_pos (n * 2 ^ (53 - d))) (d - 53).
Proof.
  intros Hn d. destruct n as [|p|p]; [lia| |lia].
  pose proof (digits2_pos_bounds p) as [Blo Bhi].
  cbn [Zdigits2] in d. fold d in Blo, Bhi.
  assert (Hd : 1 <= d <= 53).
  { split; [unfold d; lia|].
    destruct (Z_lt_le_dec 53 d); [|lia].
    assert (2 ^ 53 <= 2 ^ (d - 1)) by (apply Z.pow_le_mono_r; lia). lia. }
  cbn [binary_normalize]. unfold binary_round, shl_align.
  rewrite Z.add_0_r, fexp_53. fold d.
  replace (Z.max (d - 53) (-1074) - 0) with (d - 53) by lia.
  set (N := Z.pos p * 2 ^ (53 - d)).
  assert (HN : 2 ^ 52 <= N < 2 ^ 53).
  { unfold N.
    assert (E52 : 2 ^ 52 = 2 ^ (d - 1) * 2 ^ (53 - d))
      by (rewrite <- Z.pow_add_r by lia; f_equal; lia).
    assert (E53 : 2 ^ 53 = 2 ^ d * 2 ^ (53 - d))
      by (rewrite <- Z.pow_add_r by lia; f_equal; lia).
    rewrite E52, E53.
    pose proof (pow2_pos (53 - d) ltac:(lia)). nia. }
  assert (Hshift : (let '(mz, ez) :=
             match d - 53 with
             | Z.neg k => (Pos.iter xO p k, Z.max (d - 53) (-1074))
             | _ => (p, 0)
             end in binary_round_aux 53 1024 false (Z.pos mz) ez loc_Exact)
          = binary_round_aux 53 1024 false (N / 1) (d - 53) (loc_of N 1)).
  { rewrite loc_of_1, Z.div_1_r. unfold N.
    destruct (d - 53) as [|k|k] eqn:E; [| lia |].
    - replace (53 - d) with 0 by lia. by rewrite Z.pow_0_r, Z.mul_1_r.
    - replace (53 - d) with (Z.pos k) by lia. rewrite <- Pos_iter_xO.
      by replace (Z.max (Z.neg k) (-1074)) with (Z.neg k) by lia. }
  rewrite Hshift.
  assert (Hdig : Zdigits2 N = 53) by (apply Zdigits2_unique; [done|lia]).
  destruct (binary_round_aux_normal N 1 (d - 53)) as (m3 & e3 & -> & Hm3 & He3 & Hval);
    rewrite ?Z.div_1_r, ?Hdig; try lia.
  rewrite Z.div_1_r, Hdig in *. replace (53 - 53) with 0 in * by lia.
  unfold rne in Hval. rewrite loc_of_1, Z.mul_1_l, Z.pow_0_r, Z.div_1_r in Hval.
  cbn [round_nearest_even] in Hval.
  assert (e3 = d - 53) as ->.
  { destruct (Z.eq_dec e3 (d - 53)); [done|].
    replace (e3 - (d - 53 + 0)) with 1 in Hval by lia. change (2 ^ 1) with 2 in Hval. lia. }
  replace (d - 53 - (d - 53 + 0)) with 0 in Hval by lia.
  rewrite Z.pow_0_r, Z.mul_1_r in Hval. rewrite <- Hval. by rewrite Pos2Z.id.
Qed.

(** Comparison of two positive normal floats. *)
Lemma SFltb_pos_normal (m1 m2 : positive) (e1 e2 K : Z) :
  2 ^ 52 <= Z.pos m1 < 2 ^ 53 -> 2 ^ 52 <= Z.pos m2 < 2 ^ 53 ->
  K <= e1 -> K <= e2 ->
  SFltb (S754_finite false m1 e1) (S754_finite false m2 e2) = true
  <-> Z.pos m1 * 2 ^ (e1 - K) < Z.pos m2 * 2 ^ (e2 - K).
Proof.
  intros H1 H2 K1 K2. unfold SFltb, SFcompare.
  change (2 ^ 52) with 4503599627370496 in *.
  change (2 ^ 53) with 9007199254740992 in *.
  pose proof (pow2_pos (e1 - K) ltac:(lia)) as P1.
  pose proof (pow2_pos (e2 - K) ltac:(lia)) as P2.
  destruct (Z.compare_spec e1 e2) as [E|E|E].
  - subst e2. change (Pos.compare_cont Eq m1 m2) with (Z.pos m1 ?= Z.pos m2).
    destruct (Z.compare_spec (Z.pos m1) (Z.pos m2)); split; intros; try done; nia.
  - split; [intros _|done].
    replace (e2 - K) with (1 + (e2 - e1 - 1) + (e1 - K)) by lia.
    rewrite !Z.pow_add_r by lia. change (2 ^ 1) with 2.
    pose proof (pow2_pos (e2 - e1 - 1) ltac:(lia)).
    set (X := 2 ^ (e1 - K)) in *. set (Y := 2 ^ (e2 - e1 - 1)) in *.
    assert (Z.pos m1 * X < 2 * Z.pos m2 * X) by nia.
    assert (2 * Z.pos m2 * X * 1 <= 2 * Z.pos m2 * X * Y) by (apply Z.mul_le_mono_nonneg_l; nia).
    lia.
  - split; [done|intros Hlt]. exfalso.
    replace (e1 - K) with (1 + (e1 - e2 - 1) + (e2 - K)) in Hlt by lia.
    rewrite !Z.pow_add_r in Hlt by lia. change (2 ^ 1) with 2 in Hlt.
    pose proof (pow2_pos (e1 - e2 - 1) ltac:(lia)).
    set (X := 2 ^ (e2 - K)) in *. set (Y := 2 ^ (e1 - e2 - 1)) in *.
    assert (Z.pos m2 * X < 2 * Z.pos m1 * X) by nia.
    assert (2 * Z.pos m1 * X * 1 <= 2 * Z.pos m1 * X * Y) by (apply Z.mul_le_mono_nonneg_l; nia).
    lia.
Qed.

(** ** The target ratio 413 / 531 in binary64 *)

Lemma ASPECT_RATIO_eq :
  PyFloat.int_truediv (fst VariantB.PASSPORT_PHOTO_PX) (snd VariantB.PASSPORT_PHOTO_PX)
  = Ok VariantB.ASPECT_RATIO.
Proof. reflexivity. Qed.

Lemma aspect_target_eq :
  PyFloat.int_truediv (fst VariantA.passport_px) (snd VariantA.passport_px)
  = Ok VariantA.aspect_target.
Proof. reflexivity. Qed.

Lemma to_int_rounded (m3 : positive) (e3 e1 m2 k : Z) :
  e1 <= e3 -> e3 < 0 ->
  Z.pos m3 * 2 ^ (e3 - e1) = m2 ->
  k * 2 ^ (- e1) <= m2 < (k + 1) * 2 ^ (- e1) ->
  PyFloat.to_int (S754_finite false m3 e3) = Ok k.
Proof.
  intros He1 He3 Hm2 [Hlo Hhi]. unfold PyFloat.to_int.
  destruct e3 as [|p|p] eqn:E; [lia|lia|]. f_equal.
  rewrite <- E in *. replace (Z.pos p) with (- e3) by lia.
  assert (EJ : 2 ^ (- e1) = 2 ^ (- e3) * 2 ^ (e3 - e1))
    by (rewrite <- Z.pow_add_r by lia; f_equal; lia).
  pose proof (pow2_pos (- e3) ltac:(lia)) as P3.
  pose proof (pow2_pos (e3 - e1) ltac:(lia)) as PU.
  rewrite EJ in Hlo, Hhi. subst m2.
  set (J3 := 2 ^ (- e3)) in *. set (U := 2 ^ (e3 - e1)) in *.
  symmetry. apply Z.div_unique with (r := Z.pos m3 - k * J3); nia.
Qed.

(** Size of a normalised dimension. *)
Lemma dim_normal (h : Z) :
  0 < h < 2 ^ 31 ->
  let d := Zdigits2 h in
  1 <= d <= 31 /\ 2 ^ 52 <= h * 2 ^ (53 - d) < 2 ^ 53.
Proof.
  intros Hh d.
  pose proof (Zdigits2_bounds h ltac:(lia)) as [Blo Bhi]. fold d in Blo, Bhi.
  assert (Hd1 : 1 <= d) by (unfold d; destruct h; cbn; lia).
  assert (Hd : d <= 31).
  { destruct (Z_lt_le_dec 31 d); [|lia].
    assert (2 ^ 31 <= 2 ^ (d - 1)) by (apply Z.pow_le_mono_r; lia). lia. }
  split; [lia|].
  assert (E52 : 2 ^ 52 = 2 ^ (d - 1) * 2 ^ (53 - d))
    by (rewrite <- Z.pow_add_r by lia; f_equal; lia).
  assert (E53 : 2 ^ 53 = 2 ^ d * 2 ^ (53 - d))
    by (rewrite <- Z.pow_add_r by lia; f_equal; lia).
  rewrite E52, E53.
  pose proof (pow2_pos (53 - d) ltac:(lia)). nia.
Qed.

Lemma of_int_dim (h : Z) :
  0 < h < 2 ^ 31 ->
  PyFloat.of_int h
  = Ok (S754_finite false (Z.to_pos (h * 2 ^ (53 - Zdigits2 h))) (Zdigits2 h - 53)).
Proof.
  intros Hh. unfold PyFloat.of_int, PyFloat.prec, PyFloat.emax.
  rewrite binary_normalize_small; [done|].
  change (2 ^ 31) with 2147483648 in Hh. change (2 ^ 53) with 9007199254740992. lia.
Qed.

(** [int(h * (413 / 531))] is the floor of [7 h / 9]. *)
Lemma to_int_mul_ratio (h : Z) :
  0 < h < 2 ^ 31 ->
  exists hf, PyFloat.of_int h = Ok hf
    /\ PyFloat.to_int (PyFloat.mul hf VariantB.ASPECT_RATIO) = Ok (7 * h / 9).
Proof.
  intros Hh. eexists. split; [by apply of_int_dim|].
  destruct (dim_normal h Hh) as [Hd Hmh].
  set (d := Zdigits2 h) in *. set (a := 53 - d) in *.
  set (A := 2 ^ a) in *.
  assert (HA : 2 ^ 22 <= A) by (apply Z.pow_le_mono_r; lia).
  unfold PyFloat.mul, PyFloat.prec, PyFloat.emax, VariantB.ASPECT_RATIO.
  rewrite SFmul_pos_finite.
  rewrite Pos2Z.inj_mul, Z2Pos.id by lia.
  set (M := 7005599420354105). set (N := h * A * M).
  assert (HM : 9 * M = 7 * 2 ^ 53 + 1) by reflexivity.
  change (2 ^ 22) with 4194304 in *. change (2 ^ 31) with 2147483648 in *.
  change (2 ^ 52) with 4503599627370496 in *.
  change (2 ^ 53) with 9007199254740992 in *.
  assert (HNlo : 2 ^ 104 <= N) by (change (2 ^ 104) with (4503599627370496 * 4503599627370496); unfold N; nia).
  assert (HNhi : N < 2 ^ 106) by (change (2 ^ 106) with (9007199254740992 * 9007199254740992); unfold N; nia).
  (* the number of digits of the product *)
  set (c := if Z_lt_dec N (2 ^ 105) then 0 else 1).
  assert (Hc : 0 <= c <= 1) by (unfold c; destruct (Z_lt_dec _ _); lia).
  assert (Hdig : Zdigits2 (N / 1) = 105 + c).
  { rewrite Z.div_1_r. apply Zdigits2_unique; [|lia].
    unfold c. destruct (Z_lt_dec N (2 ^ 105)).
    - change (105 + 0 - 1) with 104. change (105 + 0) with 105. lia.
    - change (105 + 1 - 1) with 105. change (105 + 1) with 106. lia. }
  destruct (binary_round_aux_normal N 1 (d - 53 + -53))
    as (m3 & e3 & -> & Hm3 & He3 & Hval); rewrite ?Hdig; try lia.
  { rewrite Z.div_1_r. change (2 ^ 104) with 20282409603651670423947251286016 in HNlo.
    change (2 ^ 52) with 4503599627370496. lia. }
  rewrite Hdig in *.
  replace (105 + c - 53) with (52 + c) in * by lia.
  rewrite Z.mul_1_l in Hval.
  set (e1 := d - 53 + -53 + (52 + c)) in *.
  apply to_int_rounded with (e1 := e1) (m2 := rne N (2 ^ (52 + c))); [lia|lia|done|].
  set (J := 2 ^ (- e1)). set (D1 := 2 ^ (52 + c)).
  assert (EJ : J * D1 = A * 9007199254740992).
  { unfold J, D1, A. change 9007199254740992 with (2 ^ 53).
    rewrite <- !Z.pow_add_r by lia. f_equal. lia. }
  assert (HD1 : 0 < D1 <= 9007199254740992).
  { split; [apply pow2_pos; lia|]. change 9007199254740992 with (2 ^ 53).
    apply Z.pow_le_mono_r; lia. }
  assert (HJ : 0 < J) by (apply pow2_pos; lia).
  pose proof (Z.div_mod (7 * h) 9 ltac:(lia)) as Ek.
  pose proof (Z.mod_pos_bound (7 * h) 9 ltac:(lia)) as Bk.
  set (k := 7 * h / 9) in *.
  split.
  - apply rne_ge_exact; [lia|]. unfold N.
    replace (k * J * D1) with (A * (k * 9007199254740992)) by (rewrite <- (Z.mul_assoc k), EJ; ring).
    replace (h * A * M) with (A * (h * M)) by ring.
    apply Z.mul_le_mono_nonneg_l; lia.
  - assert (rne N D1 <= (k + 1) * J - 1); [|lia].
    apply rne_le_exact; [lia|]. unfold N.
    replace (((k + 1) * J - 1) * D1) with (A * ((k + 1) * 9007199254740992) - D1)
      by (rewrite Z.mul_sub_distr_r, <- (Z.mul_assoc (k + 1)), EJ; ring).
    replace (h * A * M) with (A * (h * M)) by ring.
    assert (4194304 * 281474976710656 <= A * ((k + 1) * 9007199254740992 - h * M))
      by (apply Z.mul_le_mono_nonneg; lia).
    lia.
Qed.

(** [int(w / (413 / 531))] is the floor of [9 w / 7]. *)
Lemma to_int_div_ratio (w : Z) :
  0 < w < 2 ^ 31 ->
  exists wf q, PyFloat.of_int w = Ok wf
    /\ PyFloat.truediv wf VariantB.ASPECT_RATIO = Ok q
    /\ PyFloat.to_int q = Ok (9 * w / 7).
Proof.
  intros Hw. eexists _, _. split; [by apply of_int_dim|]. split; [done|].
  destruct (dim_normal w Hw) as [Hd Hmw].
  set (d := Zdigits2 w) in *. set (a := 53 - d) in *.
  set (A := 2 ^ a) in *.
  assert (HA : 2 ^ 22 <= A) by (apply Z.pow_le_mono_r; lia).
  unfold PyFloat.truediv, PyFloat.prec, PyFloat.emax, VariantB.ASPECT_RATIO.
  rewrite SFdiv_pos_finite.
  change (Z.pos (digits2_pos 7005599420354105)) with 53.
  rewrite (digits2_pos_unique _ 53) by (rewrite Z2Pos.id by lia; done).
  rewrite Z2Pos.id by lia. rewrite fexp_53.
  replace (Z.min (Z.max (53 + (d - 53) - (53 + -53) - 53) (-1074)) (d - 53 - -53))
    with (d - 53) by lia.
  replace (d - 53 - -53 - (d - 53)) with 53 by lia.
  set (M := 7005599420354105) in *. set (N := w * A * 2 ^ 53).
  assert (HM : 9 * M = 7 * 2 ^ 53 + 1) by reflexivity.
  change (2 ^ 22) with 4194304 in *. change (2 ^ 31) with 2147483648 in *.
  change (2 ^ 52) with 4503599627370496 in *.
  change (2 ^ 53) with 9007199254740992 in *.
  assert (HMpos : 0 < M) by lia.
  assert (Hqlo : 2 ^ 52 <= N / M).
  { change (2 ^ 52) with 4503599627370496.
    apply Z.div_le_lower_bound; [lia|]. unfold N. nia. }
  assert (Hqhi : N / M < 2 ^ 54).
  { change (2 ^ 54) with 18014398509481984.
    apply Z.div_lt_upper_bound; [lia|]. unfold N. nia. }
  set (c := if Z_lt_dec (N / M) (2 ^ 53) then 0 else 1).
  assert (Hc : 0 <= c <= 1) by (unfold c; destruct (Z_lt_dec _ _); lia).
  assert (Hdig : Zdigits2 (N / M) = 53 + c).
  { apply Zdigits2_unique; [|change (2 ^ 52) with 4503599627370496 in Hqlo; lia].
    unfold c. destruct (Z_lt_dec (N / M) (2 ^ 53)).
    - change (53 + 0 - 1) with 52. change (53 + 0) with 53. lia.
    - change (53 + 1 - 1) with 53. change (53 + 1) with 54. lia. }
  destruct (binary_round_aux_normal N M (d - 53))
    as (m3 & e3 & -> & Hm3 & He3 & Hval); rewrite ?Hdig; try lia.
  rewrite Hdig in *.
  replace (53 + c - 53) with c in * by lia.
  set (e1 := d - 53 + c) in *.
  apply to_int_rounded with (e1 := e1) (m2 := rne N (M * 2 ^ c)); [lia|lia|done|].
  set (J := 2 ^ (- e1)). set (C := 2 ^ c).
  assert (EJ : J * C = A).
  { unfold J, C, A. rewrite <- !Z.pow_add_r by lia. f_equal. lia. }
  assert (HC : 1 <= C <= 2).
  { unfold C. split; [pose proof (pow2_pos c); lia|].
    change 2 with (2 ^ 1) at 2. apply Z.pow_le_mono_r; lia. }
  assert (HJ : 0 < J) by (apply pow2_pos; lia).
  pose proof (Z.div_mod (9 * w) 7 ltac:(lia)) as Ek.
  pose proof (Z.mod_pos_bound (9 * w) 7 ltac:(lia)) as Bk.
  set (k := 9 * w / 7) in *.
  split.
  - apply rne_ge; [lia|]. unfold N.
    replace ((2 * (k * J) - 1) * (M * C)) with (2 * (A * (k * M)) - M * C)
      by (rewrite <- EJ; ring).
    replace (2 * (w * A * 9007199254740992)) with (2 * (A * (w * 9007199254740992))) by ring.
    assert (7 * (A * (k * M - w * 9007199254740992)) <= w * A) by nia.
    nia.
  - assert (rne N (M * C) <= (k + 1) * J - 1); [|lia].
    apply rne_le_exact; [lia|]. unfold N.
    replace (((k + 1) * J - 1) * (M * C)) with (A * ((k + 1) * M) - M * C)
      by (rewrite <- EJ; ring).
    replace (w * A * 9007199254740992) with (A * (w * 9007199254740992)) by ring.
    assert (4194304 * 562949953421312 <= A * ((k + 1) * M - w * 9007199254740992))
      by (apply Z.mul_le_mono_nonneg; lia).
    nia.
Qed.

(** [w / h > 413 / 531] on floats decides [9 w > 7 h] on the integers. *)
Lemma aspect_gt_ratio (w h : Z) :
  0 < w < 2 ^ 31 -> 0 < h < 2 ^ 31 ->
  exists q, PyFloat.int_truediv w h = Ok q
    /\ PyFloat.gt q VariantB.ASPECT_RATIO = (7 * h <? 9 * w).
Proof.
  intros Hw Hh.
  destruct (dim_normal w Hw) as [Hdw _]. destruct (dim_normal h Hh) as [Hdh _].
  pose proof (Zdigits2_bounds w ltac:(lia)) as [Wlo Whi].
  pose proof (Zdigits2_bounds h ltac:(lia)) as [Hlo Hhi].
  destruct w as [|pw|pw]; [lia| |lia]. destruct h as [|ph|ph]; [lia| |lia].
  cbn [Zdigits2] in *.
  set (dw := Z.pos (digits2_pos pw)) in *. set (dh := Z.pos (digits2_pos ph)) in *.
  unfold PyFloat.int_truediv, PyFloat.prec, PyFloat.emax.
  change (Z.pos pw <? 0) with false. change (Z.pos ph <? 0) with false.
  change (Z.to_pos (Z.abs (Z.pos pw))) with pw.
  change (Z.to_pos (Z.abs (Z.pos ph))) with ph.
  rewrite SFdiv_pos_finite. fold dw dh. rewrite fexp_53.
  replace (Z.min (Z.max (dw + 0 - (dh + 0) - 53) (-1074)) (0 - 0)) with (dw - dh - 53) by lia.
  replace (0 - 0 - (dw - dh - 53)) with (53 + dh - dw) by lia.
  set (s := 53 + dh - dw). set (S := 2 ^ s). set (w := Z.pos pw) in *. set (h := Z.pos ph) in *.
  set (N := w * S).
  assert (HS : 0 < S) by (apply pow2_pos; lia).
  assert (ES1 : 2 ^ (dw - 1) * S = 2 ^ 52 * 2 ^ dh)
    by (unfold S; rewrite <- !Z.pow_add_r by lia; f_equal; lia).
  assert (ES2 : 2 ^ dw * S = 2 ^ 54 * 2 ^ (dh - 1))
    by (unfold S; rewrite <- !Z.pow_add_r by lia; f_equal; lia).
  assert (Hqlo : 2 ^ 52 <= N / h).
  { apply Z.div_le_lower_bound; [lia|]. unfold N.
    pose proof (pow2_pos 52 ltac:(lia)). nia. }
  assert (Hqhi : N / h < 2 ^ 54).
  { apply Z.div_lt_upper_bound; [lia|]. unfold N.
    pose proof (pow2_pos 54 ltac:(lia)). nia. }
  set (c := if Z_lt_dec (N / h) (2 ^ 53) then 0 else 1).
  assert (Hc : 0 <= c <= 1) by (unfold c; destruct (Z_lt_dec _ _); lia).
  assert (Hdig : Zdigits2 (N / h) = 53 + c /\ 2 ^ (52 + c) <= N / h).
  { unfold c. destruct (Z_lt_dec (N / h) (2 ^ 53)).
    - split; [|done]. apply Zdigits2_unique; [|change (2 ^ 52) with 4503599627370496 in Hqlo; lia].
      change (53 + 0 - 1) with 52. change (53 + 0) with 53. lia.
    - split; [|change (52 + 1) with 53; lia].
      apply Zdigits2_unique; [|change (2 ^ 52) with 4503599627370496 in Hqlo; lia].
      change (53 + 1 - 1) with 53. change (53 + 1) with 54. lia. }
  destruct Hdig as [Hdig Hqc].
  destruct (binary_round_aux_normal N h (dw - dh - 53))
    as (m3 & e3 & -> & Hm3 & He3 & Hval); rewrite ?Hdig; try lia.
  rewrite Hdig in *.
  replace (53 + c - 53) with c in * by lia.
  eexists. split; [done|].
  unfold PyFloat.gt, VariantB.ASPECT_RATIO.
  set (M := 7005599420354105) in *. set (C := 2 ^ c) in *.
  set (m2 := rne N (h * C)) in *.
  assert (HM : 9 * M = 7 * 2 ^ 53 + 1) by reflexivity.
  assert (HC : 1 <= C <= 2).
  { unfold C. split; [pose proof (pow2_pos c); lia|].
    change 2 with (2 ^ 1) at 2. apply Z.pow_le_mono_r; lia. }
  assert (Hcmp : SFltb (S754_finite false 7005599420354105 (-53)) (S754_finite false m3 e3) = true
                 <-> M * S < m2 * C * 2 ^ 53).
  { rewrite (SFltb_pos_normal _ _ _ _ (dw - dh - 53 - 53)); [|done|done|lia|lia].
    replace (-53 - (dw - dh - 53 - 53)) with s by (unfold s; lia).
    replace (e3 - (dw - dh - 53 - 53)) with ((e3 - (dw - dh - 53 + c)) + c + 53) by lia.
    rewrite !Z.pow_add_r by lia. rewrite Z.mul_assoc, Z.mul_assoc, Hval. done. }
  assert (Hm2 : 2 ^ 52 <= m2).
  { rewrite <- Hval. pose proof (pow2_pos (e3 - (dw - dh - 53 + c)) ltac:(lia)).
    pose proof (pow2_pos 52 ltac:(lia)). nia. }
  assert (HhC : 0 < h * C) by nia.
  assert (Hqh : 2 ^ (52 + c) * h <= N).
  { pose proof (Z.div_mod N h ltac:(lia)). pose proof (Z.mod_pos_bound N h ltac:(lia)). nia. }
  rewrite Z.pow_add_r in Hqh by lia. fold C in Hqh.
  change (2 ^ 31) with 2147483648 in *.
  change (2 ^ 52) with 4503599627370496 in *.
  change (2 ^ 53) with 9007199254740992 in *.
  (* the exponent of the quotient against that of the ratio *)
  destruct (Z_le_gt_dec 0 (s - c - 53)) as [Ht|Ht].
  - set (T := 2 ^ (s - c - 53)).
    assert (HT : 1 <= T) by (pose proof (pow2_pos (s - c - 53) Ht); unfold T; lia).
    assert (EST : S = T * C * 9007199254740992).
    { unfold S, T, C. change 9007199254740992 with (2 ^ 53).
      rewrite <- !Z.pow_add_r by lia. f_equal. lia. }
    destruct (Z.ltb_spec (7 * h) (9 * w)) as [Hgt|Hle].
    + apply Hcmp. rewrite EST.
      assert (M * T + 1 <= m2); [|nia].
      apply rne_ge; [done|]. unfold N. rewrite EST.
      assert (h < 2 * (T * (w * 9007199254740992 - M * h))).
      { assert (281474976710656 <= w * 9007199254740992 - M * h) by lia. nia. }
      nia.
    + apply not_true_iff_false. rewrite Hcmp. rewrite EST.
      assert (m2 <= M * T); [|nia].
      apply rne_le_exact; [done|]. unfold N. rewrite EST.
      assert (w * 9007199254740992 <= M * h) by lia. nia.
  - assert (ESC : S * 2 ^ (c + 52 - s) = C * 4503599627370496).
    { unfold S, C. change 4503599627370496 with (2 ^ 52).
      rewrite <- !Z.pow_add_r by lia. f_equal. lia. }
    pose proof (pow2_pos (c + 52 - s) ltac:(lia)) as HP.
    assert (HSC : S <= C * 4503599627370496) by nia.
    destruct (Z.ltb_spec (7 * h) (9 * w)) as [Hgt|Hle].
    + apply Hcmp. nia.
    + exfalso. unfold N in Hqh. nia.
Qed.

(** ** The centre crop *)

Lemma aspect_target_same : VariantA.aspect_target = VariantB.ASPECT_RATIO.
Proof. reflexivity. Qed.

(** The statements that variant A runs inline are those of
    [crop_image_to_aspect_ratio]. *)
Lemma crop_inline_A (img : Image) :
  (box ← crop_box (width img) (height img) VariantA.aspect_target; Ok (crop img box))
  = crop_image_to_aspect_ratio img VariantB.ASPECT_RATIO.
Proof. reflexivity. Qed.

(** On image dimensions the floating-point crop box is the integer one. *)
Lemma crop_box_spec (w h : Z) :
  dimension w -> dimension h ->
  crop_box w h VariantB.ASPECT_RATIO = Ok (crop_box_exact w h).
Proof.
  intros Hw Hh. unfold crop_box, crop_box_exact.
  destruct (aspect_gt_ratio w h Hw Hh) as (q & -> & Hgt).
  cbn [mbind result_bind]. rewrite Hgt.
  destruct (7 * h <? 9 * w).
  - destruct (to_int_mul_ratio h Hh) as (hf & -> & Hnw).
    cbn [mbind result_bind]. by rewrite Hnw.
  - destruct (to_int_div_ratio w Hw) as (wf & q' & -> & Hq & Hnh).
    cbn [mbind result_bind]. rewrite Hq. cbn [mbind result_bind]. by rewrite Hnh.
Qed.

Lemma dimension_pos (n : Z) : dimension n -> 0 < n.
Proof. by intros [? _]. Qed.

(** C2: for every source image (positive dimensions, as the imaging library
    stores them) and the target ratio 413 / 531, the centre crop returns an
    image whose width differs from [height * 413 / 531] by at most one
    pixel, that is, [|531 * width - 413 * height| <= 531]. *)
Theorem crop_aspect_within_one_pixel (img : Image) :
  dimension (width img) -> dimension (height img) ->
  exists out,
    crop_image_to_aspect_ratio img VariantB.ASPECT_RATIO = Ok out
    /\ Z.abs (531 * width out - 413 * height out) <= 531.
Proof.
  intros Hw Hh. unfold crop_image_to_aspect_ratio.
  rewrite crop_box_spec by done. cbn [mbind result_bind].
  eexists. split; [done|].
  apply dimension_pos in Hw, Hh. unfold crop_box_exact.
  destruct (Z.ltb_spec (7 * height img) (9 * width img)); cbn [crop width height];
    Z.div_mod_to_equations; lia.
Qed.

Lemma crop_aspect_within_one_pixel_witness :
  let img := Image_new (1000, 1500) white in
  dimension (width img) /\ dimension (height img) /\
  exists out,
    crop_image_to_aspect_ratio img VariantB.ASPECT_RATIO = Ok out
    /\ Z.abs (531 * width out - 413 * height out) <= 531.
Proof.
  split; [split; reflexivity|]. split; [split; reflexivity|].
  apply (crop_aspect_within_one_pixel (Image_new (1000, 1500) white)); split; reflexivity.
Defined.

(** C3: the crop is centred. On the cropped axis the leading offset is
    [floor ((original - target) / 2)] and the two removed margins differ by
    at most one pixel; the other axis keeps its full extent. *)
Theorem crop_is_centered (w h : Z) :
  dimension w -> dimension h ->
  exists x0 y0 x1 y1,
    crop_box w h VariantB.ASPECT_RATIO = Ok (x0, y0, x1, y1)
    /\ ((y0 = 0 /\ y1 = h /\ x0 = (w - (x1 - x0)) / 2 /\ 0 <= (w - x1) - x0 <= 1)
        \/ (x0 = 0 /\ x1 = w /\ y0 = (h - (y1 - y0)) / 2 /\ 0 <= (h - y1) - y0 <= 1)).
Proof.
  intros Hw Hh. rewrite crop_box_spec by done. unfold crop_box_exact.
  destruct (7 * h <? 9 * w); eexists _, _, _, _; (split; [done|]).
  - left. repeat split; try (f_equal; lia); Z.div_mod_to_equations; lia.
  - right. repeat split; try (f_equal; lia); Z.div_mod_to_equations; lia.
Qed.

Lemma crop_is_centered_witness :
  dimension 3000 /\ dimension 1501 /\
  exists x0 y0 x1 y1,
    crop_box 3000 1501 VariantB.ASPECT_RATIO = Ok (x0, y0, x1, y1)
    /\ ((y0 = 0 /\ y1 = 1501 /\ x0 = (3000 - (x1 - x0)) / 2 /\ 0 <= (3000 - x1) - x0 <= 1)
        \/ (x0 = 0 /\ x1 = 3000 /\ y0 = (1501 - (y1 - y0)) / 2 /\ 0 <= (1501 - y1) - y0 <= 1)).
Proof.
  split; [split; reflexivity|]. split; [split; reflexivity|].
  apply (crop_is_centered 3000 1501); split; reflexivity.
Defined.

(** C10: the crop box lies inside the source image: both leading offsets
    are non-negative, the box ends within the original dimensions, and the
    cropped image is no larger than the source on either axis. *)
Theorem crop_box_within_source (img : Image) :
  dimension (width img) -> dimension (height img) ->
  exists x0 y0 x1 y1 out,
    crop_box (width img) (height img) VariantB.ASPECT_RATIO = Ok (x0, y0, x1, y1)
    /\ crop_image_to_aspect_ratio img VariantB.ASPECT_RATIO = Ok out
    /\ 0 <= x0 <= x1 /\ x1 <= width img
    /\ 0 <= y0 <= y1 /\ y1 <= height img
    /\ width out = x1 - x0 /\ height out = y1 - y0
    /\ width out <= width img /\ height out <= height img.
Proof.
  intros Hw Hh. unfold crop_image_to_aspect_ratio.
  rewrite crop_box_spec by done. cbn [mbind result_bind].
  apply dimension_pos in Hw, Hh. unfold crop_box_exact.
  destruct (Z.ltb_spec (7 * height img) (9 * width img));
    eexists _, _, _, _, _; (split; [done|]); (split; [done|]);
    cbn [crop width height]; Z.div_mod_to_equations; lia.
Qed.

Lemma crop_box_within_source_witness :
  let img := Image_new (1000, 1500) white in
  dimension (width img) /\ dimension (height img) /\
  exists x0 y0 x1 y1 out,
    crop_box (width img) (height img) VariantB.ASPECT_RATIO = Ok (x0, y0, x1, y1)
    /\ crop_image_to_aspect_ratio img VariantB.ASPECT_RATIO = Ok out
    /\ 0 <= x0 <= x1 /\ x1 <= width img
    /\ 0 <= y0 <= y1 /\ y1 <= height img
    /\ width out = x1 - x0 /\ height out = y1 - y0
    /\ width out <= width img /\ height out <= height img.
Proof.
  split; [split; reflexivity|]. split; [split; reflexivity|].
  apply (crop_box_within_source (Image_new (1000, 1500) white)); split; reflexivity.
Defined.

(** ** Resize and frame *)

Lemma resize_size (img : Image) (sz : Z * Z) (resample : Resampling) :
  img_size (resize img sz resample) = sz.
Proof. by destruct sz. Qed.

(** C4: in both variants the framed photo measures the target size plus
    twice the border, [(413 + 2 * 20, 531 + 2 * 20) = (453, 571)]; the
    resized photo sits at offset [(20, 20)] and every pixel outside it is
    white, which leaves a margin of 20 pixels on each of the four sides. *)
Theorem framed_photo_size_and_margin (cropped : Image) (resample : Resampling) :
  let resizedA := resize cropped VariantA.passport_px resample in
  let resizedB := resize cropped VariantB.PASSPORT_PHOTO_PX resample in
  let framedA := VariantA.frame resizedA in
  let framedB := VariantB.frame resizedB in
  VariantA.final_photo_size = (413 + 2 * 20, 531 + 2 * 20)
  /\ VariantB.final_photo_size = (413 + 2 * 20, 531 + 2 * 20)
  /\ img_size framedA = (453, 571) /\ img_size framedB = (453, 571)
  /\ (forall x y,
        getpixel framedA x y =
          if (20 <=? x) && (x <? 20 + 413) && (20 <=? y) && (y <? 20 + 531)
          then getpixel resizedA (x - 20) (y - 20) else white)
  /\ (forall x y,
        getpixel framedB x y =
          if (20 <=? x) && (x <? 20 + 413) && (20 <=? y) && (y <? 20 + 531)
          then getpixel resizedB (x - 20) (y - 20) else white)
  /\ width framedA - (20 + width resizedA) = 20
  /\ height framedA - (20 + height resizedA) = 20
  /\ width framedB - (20 + width resizedB) = 20
  /\ height framedB - (20 + height resizedB) = 20.
Proof. cbv zeta. repeat split. Qed.

(** ** The grid *)

(** Variant B pastes its six copies inside the sheet, side by side. *)
Lemma tile_B_boxes (resized_img : Image) (resample : Resampling) :
  exists layout,
    VariantB.tile (VariantB.frame (resize resized_img VariantB.PASSPORT_PHOTO_PX resample))
                  (Sheet_new VariantB.LAYOUT_PX white) = Ok layout
    /\ sheet_size layout = (1200, 1800)
    /\ pasted_boxes layout = boxes_B.
Proof.
  eexists. split; [vm_compute; reflexivity|]. split; reflexivity.
Qed.

Lemma boxes_B_fit :
  length boxes_B = 6%nat
  /\ Z.of_nat (length boxes_B) = VariantB.GRID_ROWS * VariantB.GRID_COLS
  /\ forallb (box_inside VariantB.LAYOUT_PX) boxes_B = true
  /\ pairwise_disjoint boxes_B = true
  /\ Forall (fun b => box_width b = 453 /\ box_height b = 571) boxes_B.
Proof. repeat split; repeat constructor. Qed.

Lemma tile_A_boxes (img : Image) (resample : Resampling) :
  let layout := VariantA.tile (VariantA.frame (resize img VariantA.passport_px resample))
                              (Sheet_new VariantA.layout_size white) in
  sheet_size layout = (1200, 1800) /\ pasted_boxes layout = boxes_A.
Proof. split; reflexivity. Qed.

(** C1, on the code: with the default constants variant A pastes its
    [2 * 3] copies at the columns [-40], [373] and [786]. The first and the
    third column leave the sheet of 1200 x 1800 pixels and neighbouring
    columns overlap by 40 pixels; the claim holds for variant B only
    ([tile_B_boxes], [boxes_B_fit]). *)
Theorem grid_A_leaves_sheet_and_overlaps (img : Image) (resample : Resampling) :
  let framed := VariantA.frame (resize img VariantA.passport_px resample) in
  let layout := VariantA.tile framed (Sheet_new VariantA.layout_size white) in
  VariantA.x_spacing = -40
  /\ Z.of_nat (length (pasted_boxes layout)) = VariantA.rows * VariantA.cols
  /\ map (box_inside VariantA.layout_size) (pasted_boxes layout)
     = [false; true; false; false; true; false]
  /\ boxes_overlap (-40, 219, 413, 790) (373, 219, 826, 790) = true
  /\ pairwise_disjoint (pasted_boxes layout) = false.
Proof. repeat split. Qed.

(** C5 fails as stated: with the default constants the photos and the gaps
    of variant A add up to 1199 and 1799 pixels. *)
Lemma spacing_A_does_not_fill :
  ~ (VariantA.cols * fst VariantA.final_photo_size
       + (VariantA.cols + 1) * VariantA.x_spacing = 1200
     /\ VariantA.rows * snd VariantA.final_photo_size
       + (VariantA.rows + 1) * VariantA.y_spacing = 1800).
Proof. intros [H _]. vm_compute in H. discriminate. Qed.

(** C5, amended: the spacing of variant A is a floor division, so the
    photos and the gaps fill the sheet up to the remainder of that
    division, which is less than the number of gaps; with the default
    constants they cover 1199 of 1200 and 1799 of 1800 pixels. *)
Theorem spacing_A_fills_up_to_remainder :
  let across := VariantA.cols * fst VariantA.final_photo_size
                + (VariantA.cols + 1) * VariantA.x_spacing in
  let down := VariantA.rows * snd VariantA.final_photo_size
              + (VariantA.rows + 1) * VariantA.y_spacing in
  across = 1199 /\ down = 1799
  /\ fst VariantA.layout_size - across
     = (fst VariantA.layout_size - VariantA.cols * fst VariantA.final_photo_size)
         mod (VariantA.cols + 1)
  /\ snd VariantA.layout_size - down
     = (snd VariantA.layout_size - VariantA.rows * snd VariantA.final_photo_size)
         mod (VariantA.rows + 1)
  /\ 0 <= fst VariantA.layout_size - across < VariantA.cols + 1
  /\ 0 <= snd VariantA.layout_size - down < VariantA.rows + 1.
Proof. repeat split; discriminate. Qed.

(** ** End to end *)

Lemma crop_1000x1500 (pixels : Z -> Z -> RGB) :
  crop_image_to_aspect_ratio (mkImage 1000 1500 pixels) VariantB.ASPECT_RATIO
  = Ok (crop (mkImage 1000 1500 pixels) (0, 107, 1000, 1392)).
Proof. reflexivity. Qed.

(** Variant B on a photo of 1000 x 1500 pixels: one page of 1200 x 1800
    pixels with the six rectangles of [boxes_B]. *)
Lemma end_to_end_B (LANCZOS : Resampling) (w : World)
    (photo_path output_path : string) (pixels : Z -> Z -> RGB) :
  files w !! photo_path = Some (ImageFile (mkImage 1000 1500 pixels)) ->
  writable w output_path = true ->
  exists layout w',
    VariantB.create_photo_layout LANCZOS photo_path output_path w = (Returned, w')
    /\ files w' !! output_path = Some (PdfFile [layout] VariantB.PDF_RESOLUTION)
    /\ sheet_size layout = (1200, 1800)
    /\ pasted_boxes layout = boxes_B.
Proof.
  intros Hfile Hwr. unfold VariantB.create_photo_layout, Image_open.
  rewrite Hfile, crop_1000x1500.
  destruct (tile_B_boxes (crop (mkImage 1000 1500 pixels) (0, 107, 1000, 1392)) LANCZOS)
    as (layout & -> & Hsize & Hboxes).
  unfold Sheet_save. cbn [print writable files stdout]. rewrite Hwr.
  eexists layout, _. split; [reflexivity|].
  cbn [print files]. by rewrite lookup_insert_eq.
Qed.

Lemma end_to_end_A (default_filter : Resampling) (w : World) (pixels : Z -> Z -> RGB) :
  files w !! VariantA.photo_path = Some (ImageFile (mkImage 1000 1500 pixels)) ->
  writable w VariantA.output_pdf = true ->
  exists layout w',
    VariantA.script default_filter w = (Returned, w')
    /\ files w' !! VariantA.output_pdf = Some (PdfFile [layout] VariantB.PDF_RESOLUTION)
    /\ sheet_size layout = (1200, 1800)
    /\ pasted_boxes layout = boxes_A.
Proof.
  intros Hfile Hwr. unfold VariantA.script, Image_open. rewrite Hfile.
  unfold VariantA.make_layout.
  change (crop_box (width (mkImage 1000 1500 pixels)) (height (mkImage 1000 1500 pixels))
            VariantA.aspect_target) with (@Ok Box (0, 107, 1000, 1392)).
  cbn [mbind result_bind]. unfold Sheet_save. rewrite Hwr.
  eexists _, _. split; [reflexivity|].
  cbn [print files]. rewrite lookup_insert_eq. split; [reflexivity|].
  apply tile_A_boxes.
Qed.

(** C9, on the code: variant A turns a photo of 1000 x 1500 pixels into one
    page of 1200 x 1800 pixels on which six rectangles of 453 x 571 pixels
    are pasted, but these overlap and two columns leave the page; variant B
    meets the claim ([end_to_end_B], [boxes_B_fit]). *)
Theorem end_to_end_A_regions_overlap (default_filter : Resampling) :
  exists layout w',
    VariantA.script default_filter world_with_photo = (Returned, w')
    /\ files w' !! VariantA.output_pdf = Some (PdfFile [layout] VariantB.PDF_RESOLUTION)
    /\ sheet_size layout = (1200, 1800)
    /\ length (pasted_boxes layout) = 6%nat
    /\ Forall (fun b => box_width b = 453 /\ box_height b = 571) (pasted_boxes layout)
    /\ pairwise_disjoint (pasted_boxes layout) = false
    /\ forallb (box_inside (1200, 1800)) (pasted_boxes layout) = false.
Proof.
  destruct (end_to_end_A default_filter world_with_photo (fun _ _ => black))
    as (layout & w' & Hrun & Hfile & Hsize & Hboxes).
  { apply lookup_singleton_eq. }
  { reflexivity. }
  exists layout, w'. rewrite Hboxes.
  repeat split; try done. repeat constructor.
Qed.

(** C8: when the input path names no file, [create_photo_layout] prints one
    line that says so, exits with status 1, and leaves every file as it
    was: nothing is written to the output path. *)
Theorem missing_input_exits_without_output (LANCZOS : Resampling) (w : World)
    (photo_path output_path : string) :
  files w !! photo_path = None ->
  exists w',
    VariantB.create_photo_layout LANCZOS photo_path output_path w = (SystemExit 1, w')
    /\ exit_status (SystemExit 1) <> 0
    /\ stdout w' = stdout w ++ ["❌ Error: Input file not found at '" +:+ photo_path +:+ "'"]
    /\ files w' = files w
    /\ files w' !! output_path = files w !! output_path.
Proof.
  intros Hnone. unfold VariantB.create_photo_layout, Image_open. rewrite Hnone.
  eexists. split; [reflexivity|]. repeat split. discriminate.
Qed.

Lemma missing_input_exits_without_output_witness :
  files empty_world !! "missing.jpg" = None /\
  exists w',
    VariantB.create_photo_layout (fun _ _ _ _ => black) "missing.jpg" "sheet.pdf" empty_world
    = (SystemExit 1, w')
    /\ exit_status (SystemExit 1) <> 0
    /\ stdout w' = stdout empty_world ++ ["❌ Error: Input file not found at '" +:+ "missing.jpg" +:+ "'"]
    /\ files w' = files empty_world
    /\ files w' !! "sheet.pdf" = files empty_world !! "sheet.pdf".
Proof.
  split; [reflexivity|].
  apply (missing_input_exits_without_output (fun _ _ _ _ => black) empty_world
           "missing.jpg" "sheet.pdf").
  reflexivity.
Defined.

(** ** Dotted guidelines *)

(** [float(n)] of a non-zero integer is a non-zero float, or overflows. *)
Lemma binary_normalize_nonzero (n : Z) :
  n <> 0 ->
  exists m e,
    binary_normalize 53 1024 n 0 false
    = (if e <=? 971 then S754_finite (n <? 0) m e else S754_infinity (n <? 0))
    /\ e <= Z.max 1 (Zdigits2 n - 52).
Proof.
  intros Hn.
  assert (Hgen : forall (sx : bool) (p : positive), exists m e,
             binary_round 53 1024 sx p 0
             = (if e <=? 971 then S754_finite sx m e else S754_infinity sx)
             /\ e <= Z.max 1 (Z.pos (digits2_pos p) - 52)).
  { intros sx p.
    pose proof (digits2_pos_bounds p) as [Blo Bhi].
    set (d := Z.pos (digits2_pos p)) in *.
    assert (Hd : 1 <= d) by (unfold d; lia).
    unfold binary_round, shl_align. rewrite Z.add_0_r, fexp_53. fold d.
    replace (Z.max (d - 53) (-1074) - 0) with (d - 53) by lia.
    destruct (d - 53) as [|k|k] eqn:E.
    - (* exactly 53 digits *)
      destruct (binary_round_aux_rounds sx (Z.pos p) 1 0) as (m3 & e3 & Hr & _ & He3 & _).
      + lia.
      + rewrite Z.div_1_r. replace 52 with (d - 1) by lia. done.
      + rewrite Z.div_1_r. cbn [Zdigits2]. fold d. lia.
      + rewrite Z.div_1_r, loc_of_1 in Hr. rewrite Z.div_1_r in He3.
        cbn [Zdigits2] in He3. fold d in He3.
        exists m3, e3. split; [done|lia].
    - (* more than 53 digits *)
      destruct (binary_round_aux_rounds sx (Z.pos p) 1 0) as (m3 & e3 & Hr & _ & He3 & _).
      + lia.
      + rewrite Z.div_1_r.
        assert (2 ^ 52 <= 2 ^ (d - 1)) by (apply Z.pow_le_mono_r; lia). lia.
      + rewrite Z.div_1_r. cbn [Zdigits2]. fold d. lia.
      + rewrite Z.div_1_r, loc_of_1 in Hr. rewrite Z.div_1_r in He3.
        cbn [Zdigits2] in He3. fold d in He3.
        exists m3, e3. split; [done|lia].
    - (* fewer than 53 digits: the mantissa is shifted to the left *)
      set (N := Z.pos p * 2 ^ Z.pos k).
      assert (HN : 2 ^ 52 <= N < 2 ^ 53).
      { unfold N.
        assert (E52 : 2 ^ 52 = 2 ^ (d - 1) * 2 ^ Z.pos k)
          by (rewrite <- Z.pow_add_r by lia; f_equal; lia).
        assert (E53 : 2 ^ 53 = 2 ^ d * 2 ^ Z.pos k)
          by (rewrite <- Z.pow_add_r by lia; f_equal; lia).
        rewrite E52, E53. pose proof (pow2_pos (Z.pos k) ltac:(lia)). nia. }
      assert (Hdig : Zdigits2 N = 53) by (apply Zdigits2_unique; [done|lia]).
      destruct (binary_round_aux_rounds sx N 1 (Z.neg k)) as (m3 & e3 & Hr & _ & He3 & _).
      + lia.
      + rewrite Z.div_1_r. lia.
      + rewrite Z.div_1_r, Hdig. lia.
      + rewrite Z.div_1_r, loc_of_1 in Hr. rewrite Z.div_1_r, Hdig in He3.
        replace (Z.max (Z.neg k) (-1074)) with (Z.neg k) by lia.
        rewrite Pos_iter_xO. fold N. exists m3, e3. split; [done|lia]. }
  destruct n as [|p|p]; [done| |]; cbn [binary_normalize Zdigits2].
  - apply (Hgen false p).
  - apply (Hgen true p).
Qed.

Lemma of_int_nonzero (n : Z) (x : PyFloat.float) :
  n <> 0 -> PyFloat.of_int n = Ok x ->
  exists s m e, x = S754_finite s m e.
Proof.
  intros Hn. unfold PyFloat.of_int, PyFloat.prec, PyFloat.emax.
  destruct (binary_normalize_nonzero n Hn) as (m & e & -> & _).
  destruct (e <=? 971); cbn [PyFloat.is_finite]; [|done].
  intros [= <-]. by eexists _, _, _.
Qed.

(** A non-zero integer below [2 ^ 53] in absolute value converts. *)
Lemma of_int_small_nonzero (n : Z) :
  n <> 0 -> Z.abs n < 2 ^ 53 ->
  exists s m e, PyFloat.of_int n = Ok (S754_finite s m e).
Proof.
  intros Hn Hsmall. unfold PyFloat.of_int, PyFloat.prec, PyFloat.emax.
  destruct (binary_normalize_nonzero n Hn) as (m & e & -> & He).
  assert (Hd : Zdigits2 n <= 53).
  { destruct (Z_lt_le_dec 53 (Zdigits2 n)); [|lia].
    assert (2 ^ 53 <= 2 ^ (Zdigits2 n - 1)) by (apply Z.pow_le_mono_r; lia).
    destruct n as [|p|p]; [done| |]; cbn [Zdigits2] in *;
      pose proof (digits2_pos_bounds p); lia. }
  assert ((e <=? 971) = true) as -> by (apply Z.leb_le; lia).
  by eexists _, _, _.
Qed.

Lemma of_int_no_zero_division (n : Z) : PyFloat.of_int n <> Raise ZeroDivisionError.
Proof. unfold PyFloat.of_int. by destruct (PyFloat.is_finite _). Qed.

Lemma to_int_no_zero_division (x : PyFloat.float) :
  PyFloat.to_int x <> Raise ZeroDivisionError.
Proof. by destruct x. Qed.

Lemma int_truediv_no_zero_division (a b : Z) :
  b <> 0 -> PyFloat.int_truediv a b <> Raise ZeroDivisionError.
Proof.
  intros Hb. unfold PyFloat.int_truediv.
  destruct a, b; try done; by destruct (PyFloat.is_finite _).
Qed.

Lemma truediv_finite (x : PyFloat.float) (s : bool) (m : positive) (e : Z) :
  PyFloat.truediv x (S754_finite s m e)
  = Ok (SFdiv PyFloat.prec PyFloat.emax x (S754_finite s m e)).
Proof. reflexivity. Qed.

Lemma bind_no_raise {A B : Type} (m : result A) (k : A -> result B) (e0 : exn) :
  m <> Raise e0 -> (forall a, m = Ok a -> k a <> Raise e0) ->
  (m ≫= k) <> Raise e0.
Proof.
  destruct m as [a|e]; intros Hm Hk.
  - by apply Hk.
  - cbn [mbind result_bind]. intros [= ->]. by apply Hm.
Qed.

Lemma for_each_no_raise {A S : Type} (l : list A) (body : A -> S -> result S)
    (s : S) (e0 : exn) :
  (forall a s', a ∈ l -> body a s' <> Raise e0) ->
  for_each l body s <> Raise e0.
Proof.
  revert s. induction l as [|a l IH]; intros s Hbody; cbn [for_each]; [done|].
  apply bind_no_raise.
  - apply Hbody. left.
  - intros s' _. apply IH. intros a' s'' Hin. apply Hbody. by right.
Qed.

Lemma range_nonpositive (n : Z) : n <= 0 -> range n = [].
Proof. intros Hn. unfold range, seqZ. by replace (Z.to_nat n) with 0%nat by lia. Qed.

Lemma elem_of_range (i n : Z) : i ∈ range n -> 0 <= i < n.
Proof. unfold range. rewrite elem_of_seqZ. lia. Qed.

Lemma num_dots_no_zero_division (start_xy end_xy : Z * Z) (width gap : Z) :
  width + gap <> 0 ->
  num_dots start_xy end_xy width gap <> Raise ZeroDivisionError.
Proof.
  intros Hstep. unfold num_dots.
  apply bind_no_raise; [apply of_int_no_zero_division|]. intros sq _.
  apply bind_no_raise; [apply of_int_no_zero_division|]. intros step Hs.
  destruct (of_int_nonzero _ _ Hstep Hs) as (s & m & e & ->).
  rewrite truediv_finite. cbn [mbind result_bind].
  apply to_int_no_zero_division.
Qed.

Lemma dash_start_no_zero_division (start dist i n : Z) :
  n <> 0 -> dash_start start dist i n <> Raise ZeroDivisionError.
Proof.
  intros Hn. unfold dash_start.
  apply bind_no_raise; [by apply int_truediv_no_zero_division|]. intros q _.
  apply bind_no_raise; [apply of_int_no_zero_division|]. done.
Qed.

Lemma dash_end_no_zero_division (start dist i n : Z) :
  n <> 0 -> dash_end start dist i n <> Raise ZeroDivisionError.
Proof.
  intros Hn. unfold dash_end.
  apply bind_no_raise; [apply of_int_no_zero_division|]. intros fi _.
  apply bind_no_raise; [apply of_int_no_zero_division|]. intros fd _.
  apply bind_no_raise; [apply of_int_no_zero_division|]. intros fn Hfn.
  destruct (of_int_nonzero _ _ Hn Hfn) as (s & m & e & ->).
  rewrite truediv_finite. cbn [mbind result_bind].
  apply bind_no_raise; [apply of_int_no_zero_division|]. done.
Qed.

Lemma draw_dotted_line_no_zero_division (draw : Sheet) (start_xy end_xy : Z * Z)
    (fill : Color) (width gap : Z) :
  width + gap <> 0 ->
  draw_dotted_line draw start_xy end_xy fill width gap <> Raise ZeroDivisionError.
Proof.
  intros Hstep. unfold draw_dotted_line.
  apply bind_no_raise; [by apply num_dots_no_zero_division|]. intros n _.
  apply for_each_no_raise. intros i draw' Hi.
  apply elem_of_range in Hi.
  apply bind_no_raise; [apply dash_start_no_zero_division; lia|]. intros x0 _.
  apply bind_no_raise; [apply dash_start_no_zero_division; lia|]. intros y0 _.
  apply bind_no_raise; [apply dash_end_no_zero_division; lia|]. intros x1 _.
  apply bind_no_raise; [apply dash_end_no_zero_division; lia|]. done.
Qed.

Lemma draw_dotted_line_no_dots (draw : Sheet) (start_xy end_xy : Z * Z)
    (fill : Color) (width gap n : Z) :
  num_dots start_xy end_xy width gap = Ok n -> n <= 0 ->
  draw_dotted_line draw start_xy end_xy fill width gap = Ok draw.
Proof.
  intros Hn Hle. unfold draw_dotted_line. rewrite Hn. cbn [mbind result_bind].
  by rewrite range_nonpositive.
Qed.

(** A line that is drawn adds its dashes, and nothing else, to the sheet:
    as many as [num_dots] says. *)
Lemma draw_dotted_line_dashes (draw draw' : Sheet) (start_xy end_xy : Z * Z)
    (fill : Color) (width gap n : Z) :
  num_dots start_xy end_xy width gap = Ok n ->
  draw_dotted_line draw start_xy end_xy fill width gap = Ok draw' ->
  exists dashes,
    sheet_ops draw' = sheet_ops draw ++ dashes
    /\ Z.of_nat (length dashes) = Z.max 0 n
    /\ forallb is_line dashes = true
    /\ sheet_size draw' = sheet_size draw.
Proof.
  intros Hn. unfold draw_dotted_line. rewrite Hn. cbn [mbind result_bind].
  replace (Z.max 0 n) with (Z.of_nat (length (range n)))
    by (unfold range; rewrite length_seqZ; lia).
  generalize (range n) as l. intros l. revert draw.
  induction l as [|i l IH]; intros draw; cbn [for_each].
  - intros [= <-]. exists []. by rewrite app_nil_r.
  - destruct (dash_start (fst start_xy) _ i n) as [x0|]; [|done].
    destruct (dash_start (snd start_xy) _ i n) as [y0|]; [|done].
    destruct (dash_end (fst start_xy) _ i n) as [x1|]; [|done].
    destruct (dash_end (snd start_xy) _ i n) as [y1|]; [|done].
    cbn [mbind result_bind]. intros Hrest.
    destruct (IH _ Hrest) as (dashes & Hops & Hlen & Hlines & Hsize).
    exists (OpLine (x0, y0) (x1, y1) fill width :: dashes).
    rewrite Hops, Hsize. cbn [apply_op sheet_ops sheet_size length forallb is_line].
    rewrite <- app_assoc. split; [done|]. split; [lia|]. done.
Qed.

(** From [(0, 0)] to [(30, 0)] with [width + gap = 12] there are two
    sub-segments of length 15; the dashes cover [0, 7.5] and [15, 22.5]. *)
Lemma draw_dotted_line_example :
  draw_dotted_line (Sheet_new (1200, 1800) white) (0, 0) (30, 0) VariantB.GUIDELINE_COLOR 2 10
  = Ok (mkSheet (1200, 1800) white
          [OpLine (S754_zero false, S754_zero false)
                  (S754_finite false 8444249301319680 (-50), S754_zero false)
                  VariantB.GUIDELINE_COLOR 2;
           OpLine (S754_finite false 8444249301319680 (-49), S754_zero false)
                  (S754_finite false 6333186975989760 (-48), S754_zero false)
                  VariantB.GUIDELINE_COLOR 2]).
Proof. reflexivity. Qed.

(** A line from a point to itself has no dots. *)
Lemma num_dots_coincident (xy : Z * Z) (width gap : Z) :
  width + gap <> 0 -> Z.abs (width + gap) < 2 ^ 53 ->
  num_dots xy xy width gap = Ok 0.
Proof.
  intros Hstep Hsmall. unfold num_dots. rewrite !Z.sub_diag.
  change (PyFloat.of_int (0 ^ 2 + 0 ^ 2)) with (@Ok PyFloat.float (S754_zero false)).
  cbn [mbind result_bind].
  destruct (of_int_small_nonzero _ Hstep Hsmall) as (s & m & e & ->).
  reflexivity.
Qed.

(** C6: when [width + gap] is not zero, [draw_dotted_line] and
    [draw_dotted_rectangle] raise no [ZeroDivisionError], whatever the
    endpoints; when the number of dots is zero or less the sheet is returned
    as it was; a line from a point to itself, and a rectangle reduced to a
    point, draw nothing. *)
Theorem dotted_guidelines_no_zero_division (draw : Sheet) (start_xy end_xy : Z * Z)
    (xy : Box) (fill : Color) (width gap : Z) :
  width + gap <> 0 ->
  draw_dotted_line draw start_xy end_xy fill width gap <> Raise ZeroDivisionError
  /\ draw_dotted_rectangle draw xy fill width gap <> Raise ZeroDivisionError
  /\ (forall n, num_dots start_xy end_xy width gap = Ok n -> n <= 0 ->
        draw_dotted_line draw start_xy end_xy fill width gap = Ok draw)
  /\ (Z.abs (width + gap) < 2 ^ 53 ->
        num_dots start_xy start_xy width gap = Ok 0
        /\ draw_dotted_line draw start_xy start_xy fill width gap = Ok draw
        /\ draw_dotted_rectangle draw
             (fst start_xy, snd start_xy, fst start_xy, snd start_xy) fill width gap
           = Ok draw).
Proof.
  intros Hstep. split; [by apply draw_dotted_line_no_zero_division|]. split.
  - destruct xy as [[[x0 y0] x1] y1]. unfold draw_dotted_rectangle.
    repeat (apply bind_no_raise;
            [by apply draw_dotted_line_no_zero_division|intros ? _]).
    by apply draw_dotted_line_no_zero_division.
  - split; [intros n; apply draw_dotted_line_no_dots|].
    intros Hsmall.
    assert (Hline : forall p d, draw_dotted_line d p p fill width gap = Ok d).
    { intros p d. apply draw_dotted_line_no_dots with (n := 0); [|lia].
      by apply num_dots_coincident. }
    split; [by apply num_dots_coincident|]. split; [apply Hline|].
    unfold draw_dotted_rectangle.
    repeat (rewrite Hline; cbn [mbind result_bind]). done.
Qed.

Lemma dotted_guidelines_no_zero_division_witness :
  VariantB.GUIDELINE_WIDTH + VariantB.DOTTED_LINE_GAP <> 0 /\
  let draw := Sheet_new (1200, 1800) white in
  let fill := VariantB.GUIDELINE_COLOR in
  draw_dotted_line draw (5, 5) (8, 9) fill 2 10 <> Raise ZeroDivisionError
  /\ draw_dotted_rectangle draw (5, 5, 8, 9) fill 2 10 <> Raise ZeroDivisionError
  /\ (forall n, num_dots (5, 5) (8, 9) 2 10 = Ok n -> n <= 0 ->
        draw_dotted_line draw (5, 5) (8, 9) fill 2 10 = Ok draw)
  /\ (Z.abs (2 + 10) < 2 ^ 53 ->
        num_dots (5, 5) (5, 5) 2 10 = Ok 0
        /\ draw_dotted_line draw (5, 5) (5, 5) fill 2 10 = Ok draw
        /\ draw_dotted_rectangle draw (5, 5, 5, 5) fill 2 10 = Ok draw).
Proof.
  split; [discriminate|].
  apply (dotted_guidelines_no_zero_division (Sheet_new (1200, 1800) white)
           (5, 5) (8, 9) (5, 5, 8, 9) VariantB.GUIDELINE_COLOR 2 10).
  discriminate.
Defined.

(** With [width + gap = 0] the division of [num_dots] raises: the
    hypothesis of the theorem cannot be dropped. *)
Lemma num_dots_zero_step :
  num_dots (0, 0) (3, 4) 0 0 = Raise ZeroDivisionError
  /\ draw_dotted_line (Sheet_new (1200, 1800) white) (0, 0) (3, 4)
       VariantB.GUIDELINE_COLOR 0 0 = Raise ZeroDivisionError.
Proof. split; reflexivity. Qed.

(** The sides of a framed photo carry 37 and 47 dots; a segment of length 5
    carries none. *)
Lemma num_dots_examples :
  num_dots (147, 43) (600, 43) 2 10 = Ok 37
  /\ num_dots (600, 43) (600, 614) 2 10 = Ok 47
  /\ num_dots (0, 0) (3, 4) 2 10 = Ok 0.
Proof. repeat split. Qed.

(** * Further properties of the code *)

(** ** The centre crop, continued *)

(** X1: the comparison of the two floating-point ratios and the two truncated
    products of [crop_image_to_aspect_ratio] come out as in exact integer
    arithmetic on 7 / 9: the image is cropped in width exactly when
    [9 * width > 7 * height], to [floor (7 * height / 9)] columns, and
    otherwise in height, to [floor (9 * width / 7)] rows. *)
Theorem crop_in_integer_arithmetic (img : Image) :
  dimension (width img) -> dimension (height img) ->
  let w := width img in
  let h := height img in
  crop_image_to_aspect_ratio img VariantB.ASPECT_RATIO
  = Ok (crop img
          (if 7 * h <? 9 * w
           then ((w - 7 * h / 9) / 2, 0, (w - 7 * h / 9) / 2 + 7 * h / 9, h)
           else (0, (h - 9 * w / 7) / 2, w, (h - 9 * w / 7) / 2 + 9 * w / 7))).
Proof.
  intros Hw Hh w h. unfold crop_image_to_aspect_ratio.
  rewrite crop_box_spec by done. cbn [mbind result_bind].
  unfold crop_box_exact. fold w h. by destruct (7 * h <? 9 * w).
Qed.

Lemma crop_in_integer_arithmetic_witness :
  let img := Image_new (3000, 1501) white in
  dimension (width img) /\ dimension (height img) /\
  crop_image_to_aspect_ratio img VariantB.ASPECT_RATIO
  = Ok (crop img
          (if 7 * height img <? 9 * width img
           then ((width img - 7 * height img / 9) / 2, 0,
                 (width img - 7 * height img / 9) / 2 + 7 * height img / 9, height img)
           else (0, (height img - 9 * width img / 7) / 2, width img,
                 (height img - 9 * width img / 7) / 2 + 9 * width img / 7))).
Proof.
  split; [split; reflexivity|]. split; [split; reflexivity|].
  apply (crop_in_integer_arithmetic (Image_new (3000, 1501) white)); split; reflexivity.
Defined.

(** X2: an image that already has the ratio 7 : 9 is returned whole: same size,
    same pixels. *)
Theorem crop_keeps_image_of_target_ratio (img : Image) (k : Z) :
  width img = 7 * k -> height img = 9 * k ->
  dimension (width img) -> dimension (height img) ->
  exists out,
    crop_image_to_aspect_ratio img VariantB.ASPECT_RATIO = Ok out
    /\ img_size out = img_size img
    /\ forall x y, 0 <= x < width img -> 0 <= y < height img ->
         getpixel out x y = getpixel img x y.
Proof.
  intros Ew Eh Hw Hh. unfold crop_image_to_aspect_ratio.
  rewrite crop_box_spec by done. cbn [mbind result_bind].
  eexists. split; [done|].
  assert (Hbox : crop_box_exact (width img) (height img) = (0, 0, width img, height img)).
  { unfold crop_box_exact.
    destruct (Z.ltb_spec (7 * height img) (9 * width img)); [lia|].
    assert (E1 : 9 * width img / 7 = height img)
      by (rewrite Ew, Eh; Z.div_mod_to_equations; lia).
    rewrite E1, Z.sub_diag. by change (0 / 2) with 0. }
  rewrite Hbox. unfold img_size. cbn [crop width height getpixel].
  split; [by rewrite !Z.sub_0_r|].
  intros x y Hx Hy. rewrite !Z.add_0_r.
  assert ((0 <=? x) = true) as -> by (apply Z.leb_le; lia).
  assert ((x <? width img) = true) as -> by (apply Z.ltb_lt; lia).
  assert ((0 <=? y) = true) as -> by (apply Z.leb_le; lia).
  assert ((y <? height img) = true) as -> by (apply Z.ltb_lt; lia).
  done.
Qed.

Lemma crop_keeps_image_of_target_ratio_witness :
  let img := Image_new (413, 531) white in
  width img = 7 * 59 /\ height img = 9 * 59 /\
  dimension (width img) /\ dimension (height img) /\
  exists out,
    crop_image_to_aspect_ratio img VariantB.ASPECT_RATIO = Ok out
    /\ img_size out = img_size img
    /\ forall x y, 0 <= x < width img -> 0 <= y < height img ->
         getpixel out x y = getpixel img x y.
Proof.
  split; [reflexivity|]. split; [reflexivity|].
  split; [split; reflexivity|]. split; [split; reflexivity|].
  apply (crop_keeps_image_of_target_ratio (Image_new (413, 531) white) 59);
    try reflexivity; split; reflexivity.
Defined.

(** X3: the cropped image is empty exactly when the source is one pixel high:
    then [int(1 * 0.777...)] is 0 and the crop has width 0; every higher
    image keeps at least one pixel on each axis. *)
Theorem crop_empty_iff_one_pixel_high (img : Image) :
  dimension (width img) -> dimension (height img) ->
  exists out,
    crop_image_to_aspect_ratio img VariantB.ASPECT_RATIO = Ok out
    /\ (0 < width out /\ 0 < height out <-> 2 <= height img)
    /\ (height img = 1 -> width out = 0 /\ height out = 1).
Proof.
  intros Hw Hh. unfold crop_image_to_aspect_ratio.
  rewrite crop_box_spec by done. cbn [mbind result_bind].
  eexists. split; [done|].
  apply dimension_pos in Hw, Hh. unfold crop_box_exact.
  destruct (Z.ltb_spec (7 * height img) (9 * width img));
    cbn [crop width height]; Z.div_mod_to_equations; lia.
Qed.

Lemma crop_empty_iff_one_pixel_high_witness :
  let img := Image_new (5, 1) white in
  dimension (width img) /\ dimension (height img) /\
  exists out,
    crop_image_to_aspect_ratio img VariantB.ASPECT_RATIO = Ok out
    /\ (0 < width out /\ 0 < height out <-> 2 <= height img)
    /\ (height img = 1 -> width out = 0 /\ height out = 1).
Proof.
  split; [split; reflexivity|]. split; [split; reflexivity|].
  apply (crop_empty_iff_one_pixel_high (Image_new (5, 1) white)); split; reflexivity.
Defined.

(** X4: the crop never pads: every pixel of the cropped image is the pixel of
    the source at the same place shifted by the offset of the box. *)
Theorem crop_pixels_come_from_source (img : Image) :
  dimension (width img) -> dimension (height img) ->
  exists x0 y0 x1 y1 out,
    crop_box (width img) (height img) VariantB.ASPECT_RATIO = Ok (x0, y0, x1, y1)
    /\ crop_image_to_aspect_ratio img VariantB.ASPECT_RATIO = Ok out
    /\ forall x y, 0 <= x < width out -> 0 <= y < height out ->
         getpixel out x y = getpixel img (x + x0) (y + y0).
Proof.
  intros Hw Hh. unfold crop_image_to_aspect_ratio.
  rewrite crop_box_spec by done. cbn [mbind result_bind].
  apply dimension_pos in Hw, Hh. unfold crop_box_exact.
  destruct (Z.ltb_spec (7 * height img) (9 * width img));
    eexists _, _, _, _, _; (split; [done|]); (split; [done|]);
    cbn [crop getpixel width height]; intros x y Hx Hy.
  - assert ((0 <=? x + (width img - 7 * height img / 9) / 2) = true) as ->
      by (apply Z.leb_le; Z.div_mod_to_equations; lia).
    assert ((x + (width img - 7 * height img / 9) / 2 <? width img) = true) as ->
      by (apply Z.ltb_lt; Z.div_mod_to_equations; lia).
    assert ((0 <=? y + 0) = true) as -> by (apply Z.leb_le; lia).
    assert ((y + 0 <? height img) = true) as -> by (apply Z.ltb_lt; lia).
    done.
  - assert ((0 <=? x + 0) = true) as -> by (apply Z.leb_le; lia).
    assert ((x + 0 <? width img) = true) as -> by (apply Z.ltb_lt; lia).
    assert ((0 <=? y + (height img - 9 * width img / 7) / 2) = true) as ->
      by (apply Z.leb_le; Z.div_mod_to_equations; lia).
    assert ((y + (height img - 9 * width img / 7) / 2 <? height img) = true) as ->
      by (apply Z.ltb_lt; Z.div_mod_to_equations; lia).
    done.
Qed.

Lemma crop_pixels_come_from_source_witness :
  let img := Image_new (1000, 1500) white in
  dimension (width img) /\ dimension (height img) /\
  exists x0 y0 x1 y1 out,
    crop_box (width img) (height img) VariantB.ASPECT_RATIO = Ok (x0, y0, x1, y1)
    /\ crop_image_to_aspect_ratio img VariantB.ASPECT_RATIO = Ok out
    /\ forall x y, 0 <= x < width out -> 0 <= y < height out ->
         getpixel out x y = getpixel img (x + x0) (y + y0).
Proof.
  split; [split; reflexivity|]. split; [split; reflexivity|].
  apply (crop_pixels_come_from_source (Image_new (1000, 1500) white)); split; reflexivity.
Defined.

(** X5: an image of height 0 makes [img.width / img.height] raise
    [ZeroDivisionError], whatever its width and the target ratio; neither
    variant catches it. *)
Theorem crop_zero_height_raises (img : Image) (aspect_target : PyFloat.float) :
  height img = 0 ->
  crop_image_to_aspect_ratio img aspect_target = Raise ZeroDivisionError.
Proof.
  intros Hh. unfold crop_image_to_aspect_ratio, crop_box, PyFloat.int_truediv.
  rewrite Hh. by destruct (width img).
Qed.

Lemma crop_zero_height_raises_witness :
  height (Image_new (10, 0) white) = 0 /\
  crop_image_to_aspect_ratio (Image_new (10, 0) white) VariantB.ASPECT_RATIO
  = Raise ZeroDivisionError.
Proof.
  split; [reflexivity|].
  apply (crop_zero_height_raises (Image_new (10, 0) white) VariantB.ASPECT_RATIO).
  reflexivity.
Defined.

(** ** The two programs, for every photo *)

(** The tiling of variant B does not look at the photo: it pastes the very
    same framed image at the six positions and draws 1008 dashes. *)
Lemma tile_B_any_photo (framed_photo : Image) :
  exists layout,
    VariantB.tile framed_photo (Sheet_new VariantB.LAYOUT_PX white) = Ok layout
    /\ sheet_size layout = (1200, 1800)
    /\ pasted_images layout = map (fun xy => (framed_photo, xy)) positions_B
    /\ length (drawn_lines layout) = 1008%nat.
Proof.
  eexists. split; [vm_compute; reflexivity|]. repeat split.
Qed.

Lemma pasted_boxes_of_images (s : Sheet) :
  pasted_boxes s
  = map (fun p : Image * (Z * Z) =>
           (fst (snd p), snd (snd p),
            fst (snd p) + width (fst p), snd (snd p) + height (fst p)))
        (pasted_images s).
Proof.
  unfold pasted_boxes, pasted_images.
  induction (sheet_ops s) as [|[im [x y]| |] ops IH]; cbn; by rewrite ?IH.
Qed.

Lemma crop_returns (img : Image) :
  dimension (width img) -> dimension (height img) ->
  crop_image_to_aspect_ratio img VariantB.ASPECT_RATIO
  = Ok (crop img (crop_box_exact (width img) (height img))).
Proof.
  intros Hw Hh. unfold crop_image_to_aspect_ratio.
  by rewrite crop_box_spec.
Qed.

(** The two ends of a run on a readable photo. *)
Lemma create_photo_layout_succeeds_aux (LANCZOS : Resampling) (w : World)
    (photo_path output_path : string) (source_img : Image) :
  files w !! photo_path = Some (ImageFile source_img) ->
  dimension (width source_img) -> dimension (height source_img) ->
  writable w output_path = true ->
  exists layout w',
    VariantB.create_photo_layout LANCZOS photo_path output_path w = (Returned, w')
    /\ files w' = <[output_path := PdfFile [layout] VariantB.PDF_RESOLUTION]> (files w).
Proof.
  intros Hfile Hw Hh Hwr.
  unfold VariantB.create_photo_layout, Image_open. rewrite Hfile.
  rewrite crop_returns by done.
  set (cropped := crop source_img _).
  destruct (tile_B_any_photo (VariantB.frame (resize cropped VariantB.PASSPORT_PHOTO_PX LANCZOS)))
    as (layout & Htile & _).
  rewrite Htile. clear Htile.
  unfold Sheet_save. cbn [print writable files stdout]. rewrite Hwr.
  exists layout. eexists. split; reflexivity.
Qed.

Lemma unwritable_output_aux (LANCZOS : Resampling) (w : World)
    (photo_path output_path : string) (source_img : Image) :
  files w !! photo_path = Some (ImageFile source_img) ->
  dimension (width source_img) -> dimension (height source_img) ->
  writable w output_path = false ->
  exists w',
    VariantB.create_photo_layout LANCZOS photo_path output_path w = (SystemExit 1, w')
    /\ files w' = files w.
Proof.
  intros Hfile Hw Hh Hwr.
  unfold VariantB.create_photo_layout, Image_open. rewrite Hfile.
  rewrite crop_returns by done.
  set (cropped := crop source_img _).
  destruct (tile_B_any_photo (VariantB.frame (resize cropped VariantB.PASSPORT_PHOTO_PX LANCZOS)))
    as (layout & Htile & _).
  rewrite Htile. clear Htile.
  unfold Sheet_save. cbn [print writable files stdout]. rewrite Hwr.
  eexists. split; reflexivity.
Qed.



(** X7: a file that exists but holds no image: the second handler prints one
    line and the program exits with status 1; no file is written. *)
Theorem unreadable_input_exits_without_output (LANCZOS : Resampling) (w : World)
    (photo_path output_path : string) (f : File) :
  files w !! photo_path = Some f ->
  (forall img, f <> ImageFile img) ->
  exists reason w',
    VariantB.create_photo_layout LANCZOS photo_path output_path w = (SystemExit 1, w')
    /\ stdout w' = stdout w ++ ["❌ Error: Could not open image file. Reason: " +:+ reason]
    /\ files w' = files w.
Proof.
  intros Hfile Hnot. unfold VariantB.create_photo_layout, Image_open. rewrite Hfile.
  destruct f as [img| |]; [by destruct (Hnot img)| |]; by eexists _, _.
Qed.

Lemma unreadable_input_exits_without_output_witness :
  let w := mkWorld {[ "notes.txt" := OtherFile ]} (fun _ => true) [] in
  files w !! "notes.txt" = Some OtherFile /\
  (forall img, OtherFile <> ImageFile img) /\
  exists reason w',
    VariantB.create_photo_layout (fun _ _ _ _ => black) "notes.txt" "sheet.pdf" w
    = (SystemExit 1, w')
    /\ stdout w' = stdout w ++ ["❌ Error: Could not open image file. Reason: " +:+ reason]
    /\ files w' = files w.
Proof.
  split; [reflexivity|]. split; [discriminate|].
  apply (unreadable_input_exits_without_output (fun _ _ _ _ => black)
           (mkWorld {[ "notes.txt" := OtherFile ]} (fun _ => true) [])
           "notes.txt" "sheet.pdf" OtherFile).
  - reflexivity.
  - discriminate.
Defined.





(** Variant A, too, pastes one and the same framed image six times, and
    outlines each copy with one solid rectangle around its box. *)
Lemma tile_A_any_photo (framed : Image) :
  let layout := VariantA.tile framed (Sheet_new VariantA.layout_size white) in
  sheet_size layout = (1200, 1800)
  /\ pasted_images layout
     = map (fun xy => (framed, xy))
           [(-40, 219); (373, 219); (786, 219); (-40, 1009); (373, 1009); (786, 1009)]
  /\ length (sheet_ops layout) = 12%nat
  /\ drawn_lines layout = [].
Proof. repeat split. Qed.

(** X10: variant A has no handler: when [passport_photo.jpg] is missing the
    script ends with the uncaught [FileNotFoundError] (exit status 1); it
    prints nothing on the standard output and writes no file. *)
Theorem script_A_missing_input (default_filter : Resampling) (w : World) :
  files w !! VariantA.photo_path = None ->
  VariantA.script default_filter w = (Uncaught FileNotFoundError, w)
  /\ exit_status (Uncaught FileNotFoundError) = 1.
Proof.
  intros Hnone. unfold VariantA.script, Image_open. by rewrite Hnone.
Qed.

Lemma script_A_missing_input_witness :
  files empty_world !! VariantA.photo_path = None /\
  VariantA.script (fun _ _ _ _ => black) empty_world = (Uncaught FileNotFoundError, empty_world)
  /\ exit_status (Uncaught FileNotFoundError) = 1.
Proof.
  split; [reflexivity|].
  apply (script_A_missing_input (fun _ _ _ _ => black) empty_world). reflexivity.
Defined.



(** X12: variant A is all or nothing: on every world it either returns, having
    written exactly the one page and printed exactly the one line, or ends
    with an uncaught exception and leaves the files and the standard output
    as they were. It never exits through [sys.exit]. *)
Theorem script_A_all_or_nothing (default_filter : Resampling) (w : World) :
  exists o w',
    VariantA.script default_filter w = (o, w')
    /\ ((o = Returned
         /\ (exists layout,
               files w' = <[VariantA.output_pdf := PdfFile [layout] VariantB.PDF_RESOLUTION]>
                            (files w))
         /\ stdout w' = stdout w ++
              ["✅ Output saved: passport_layout.pdf with 2x3 side-by-side layout."])
        \/ (exists e, o = Uncaught e /\ w' = w)).
Proof.
  unfold VariantA.script.
  destruct (Image_open w VariantA.photo_path) as [img|e]; [|by eexists _, _; split; [|right; eexists]].
  destruct (VariantA.make_layout default_filter img) as [layout|e];
    [|by eexists _, _; split; [|right; eexists]].
  unfold Sheet_save. destruct (writable w VariantA.output_pdf);
    [|by eexists _, _; split; [|right; eexists]].
  eexists _, _. split; [reflexivity|]. left. split; [done|]. split; [by eexists|done].
Qed.

(** ** Dotted guidelines, continued *)

(** [int(float(a) / float(b))] is the floor of [a / b] for positive integers
    below [2 ^ 31]. *)
Lemma to_int_truediv_dims (a b : Z) :
  0 < a < 2 ^ 31 -> 0 < b < 2 ^ 31 ->
  exists af bf q,
    PyFloat.of_int a = Ok af /\ PyFloat.of_int b = Ok bf
    /\ PyFloat.truediv af bf = Ok q
    /\ PyFloat.to_int q = Ok (a / b).
Proof.
  intros Ha Hb. eexists _, _, _.
  split; [by apply of_int_dim|]. split; [by apply of_int_dim|]. split; [done|].
  destruct (dim_normal a Ha) as [Hda Hma]. destruct (dim_normal b Hb) as [Hdb Hmb].
  set (da := Zdigits2 a) in *. set (db := Zdigits2 b) in *.
  set (A := 2 ^ (53 - da)) in *. set (B := 2 ^ (53 - db)) in *.
  assert (HA : 2 ^ 22 <= A) by (apply Z.pow_le_mono_r; lia).
  unfold PyFloat.prec, PyFloat.emax.
  rewrite SFdiv_pos_finite.
  rewrite !(digits2_pos_unique _ 53) by (rewrite Z2Pos.id by lia; done).
  rewrite !Z2Pos.id by lia. rewrite fexp_53.
  replace (Z.min (Z.max (53 + (da - 53) - (53 + (db - 53)) - 53) (-1074)) (da - 53 - (db - 53)))
    with (da - db - 53) by lia.
  replace (da - 53 - (db - 53) - (da - db - 53)) with 53 by lia.
  set (N := a * A * 2 ^ 53). set (D := b * B) in *.
  change (2 ^ 22) with 4194304 in *. change (2 ^ 31) with 2147483648 in *.
  change (2 ^ 52) with 4503599627370496 in *.
  change (2 ^ 53) with 9007199254740992 in *.
  assert (Hqlo : 2 ^ 52 <= N / D).
  { change (2 ^ 52) with 4503599627370496.
    apply Z.div_le_lower_bound; [lia|]. unfold N. nia. }
  assert (Hqhi : N / D < 2 ^ 54).
  { change (2 ^ 54) with 18014398509481984.
    apply Z.div_lt_upper_bound; [lia|]. unfold N. nia. }
  set (c := if Z_lt_dec (N / D) (2 ^ 53) then 0 else 1).
  assert (Hc : 0 <= c <= 1) by (unfold c; destruct (Z_lt_dec _ _); lia).
  assert (Hdig : Zdigits2 (N / D) = 53 + c).
  { apply Zdigits2_unique; [|change (2 ^ 52) with 4503599627370496 in Hqlo; lia].
    unfold c. destruct (Z_lt_dec (N / D) (2 ^ 53)).
    - change (53 + 0 - 1) with 52. change (53 + 0) with 53. lia.
    - change (53 + 1 - 1) with 53. change (53 + 1) with 54. lia. }
  destruct (binary_round_aux_normal N D (da - db - 53))
    as (m3 & e3 & -> & Hm3 & He3 & Hval); rewrite ?Hdig; try lia.
  rewrite Hdig in *.
  replace (53 + c - 53) with c in * by lia.
  set (e1 := da - db - 53 + c) in *.
  apply to_int_rounded with (e1 := e1) (m2 := rne N (D * 2 ^ c)); [lia|lia|done|].
  set (J := 2 ^ (- e1)). set (C := 2 ^ c).
  assert (EJ : J * (B * C) = A * 9007199254740992).
  { unfold J, C, A, B. change 9007199254740992 with (2 ^ 53).
    rewrite <- !Z.pow_add_r by lia. f_equal. lia. }
  assert (HC : 1 <= C <= 2).
  { unfold C. split; [pose proof (pow2_pos c); lia|].
    change 2 with (2 ^ 1) at 2. apply Z.pow_le_mono_r; lia. }
  assert (HJ : 0 < J) by (apply pow2_pos; lia).
  pose proof (Z.div_mod a b ltac:(lia)) as Ek.
  pose proof (Z.mod_pos_bound a b ltac:(lia)) as Bk.
  set (k := a / b) in *.
  assert (Hk : 0 <= k) by (apply Z.div_pos; lia).
  assert (HD : 0 < D) by lia.
  assert (EJD : forall z, z * J * (D * C) = (z * b) * (A * 9007199254740992)).
  { intros z. unfold D. rewrite <- EJ. ring. }
  split.
  - apply rne_ge_exact; [nia|]. rewrite EJD. unfold N.
    replace (a * A * 9007199254740992) with (a * (A * 9007199254740992)) by ring.
    apply Z.mul_le_mono_nonneg_r; lia.
  - assert (rne N (D * C) <= (k + 1) * J - 1); [|lia].
    apply rne_le_exact; [nia|].
    rewrite Z.mul_sub_distr_r, EJD. unfold N.
    replace (a * A * 9007199254740992) with (a * (A * 9007199254740992)) by ring.
    assert (D * C <= 1 * (A * 9007199254740992)) by nia.
    assert ((a + 1) * (A * 9007199254740992) <= (k + 1) * b * (A * 9007199254740992))
      by (apply Z.mul_le_mono_nonneg_r; lia).
    lia.
Qed.

(** A mantissa of 53 digits with no remainder is kept as it is. *)
Lemma binary_round_aux_exact (q e : Z) :
  2 ^ 52 <= q < 2 ^ 53 -> -1074 <= e < 971 ->
  binary_round_aux 53 1024 false q e loc_Exact = S754_finite false (Z.to_pos q) e.
Proof.
  intros Hq He.
  assert (Hdig : Zdigits2 q = 53).
  { apply Zdigits2_unique; [done|]. change (2 ^ 52) with 4503599627370496 in Hq. lia. }
  destruct (binary_round_aux_normal q 1 e) as (m3 & e3 & Hr & Hm3 & He3 & Hval);
    rewrite ?Z.div_1_r, ?Hdig; try lia.
  rewrite Z.div_1_r, loc_of_1 in Hr. rewrite Hr.
  rewrite Z.div_1_r, Hdig in *. replace (53 - 53) with 0 in * by lia.
  unfold rne in Hval. rewrite loc_of_1, Z.mul_1_l, Z.pow_0_r, Z.div_1_r in Hval.
  cbn [round_nearest_even] in Hval.
  assert (e3 = e) as ->.
  { destruct (Z.eq_dec e3 e); [done|].
    replace (e3 - (e + 0)) with 1 in Hval by lia. change (2 ^ 1) with 2 in Hval. lia. }
  replace (e - (e + 0)) with 0 in Hval by lia.
  rewrite Z.pow_0_r, Z.mul_1_r in Hval. rewrite <- Hval. by rewrite Pos2Z.id.
Qed.

Lemma sqrtrem_square (Q : Z) : 0 <= Q -> Z.sqrtrem (Q * Q) = (Q, 0).
Proof.
  intros HQ. pose proof (Z.sqrtrem_spec (Q * Q) ltac:(nia)) as H.
  destruct (Z.sqrtrem (Q * Q)) as [s r]. destruct H as [E B].
  assert (s = Q) by nia. subst s. f_equal. lia.
Qed.

(** The number of digits of a square. *)
Lemma digits_of_square (L : Z) :
  0 < L -> Z.div2 (Zdigits2 (L * L) + 1) = Zdigits2 L.
Proof.
  intros HL.
  pose proof (Zdigits2_bounds L HL) as [Blo Bhi].
  pose proof (Zdigits2_bounds (L * L) ltac:(nia)) as [Slo Shi].
  set (d := Zdigits2 L) in *. set (d2 := Zdigits2 (L * L)) in *.
  assert (Hd : 1 <= d) by (unfold d; destruct L; cbn; lia).
  assert (Hd2 : 1 <= d2) by (unfold d2; destruct (L * L) eqn:E; cbn; lia).
  assert (E1 : 2 ^ (d - 1) * 2 ^ (d - 1) = 2 ^ (2 * d - 2))
    by (rewrite <- Z.pow_add_r by lia; f_equal; lia).
  assert (E2 : 2 ^ d * 2 ^ d = 2 ^ (2 * d))
    by (rewrite <- Z.pow_add_r by lia; f_equal; lia).
  assert (Hsq : 2 ^ (2 * d - 2) <= L * L < 2 ^ (2 * d)) by nia.
  assert (Hlo : 2 * d - 1 <= d2).
  { destruct (Z_lt_le_dec d2 (2 * d - 1)); [|done].
    assert (2 ^ d2 <= 2 ^ (2 * d - 2)) by (apply Z.pow_le_mono_r; lia). lia. }
  assert (Hhi : d2 <= 2 * d).
  { destruct (Z_lt_le_dec (2 * d) d2); [|done].
    assert (2 ^ (2 * d) <= 2 ^ (d2 - 1)) by (apply Z.pow_le_mono_r; lia). lia. }
  rewrite Z.div2_div. Z.div_mod_to_equations. lia.
Qed.

(** The square root of a square is exact: [float(L * L) ** 0.5] is
    [float(L)]. *)
Lemma pow_half_square (L : Z) :
  0 < L < 2 ^ 26 ->
  exists x y,
    PyFloat.of_int (L * L) = Ok x /\ PyFloat.of_int L = Ok y
    /\ PyFloat.pow_half x = y.
Proof.
  intros HL.
  change (2 ^ 26) with 67108864 in HL.
  assert (HL31 : 0 < L < 2 ^ 31) by (change (2 ^ 31) with 2147483648; lia).
  assert (Hn : 0 < L * L < 2 ^ 53) by (change (2 ^ 53) with 9007199254740992; nia).
  eexists _, _. split.
  { unfold PyFloat.of_int, PyFloat.prec, PyFloat.emax.
    rewrite binary_normalize_small by done. reflexivity. }
  split; [by apply of_int_dim|].
  destruct (dim_normal L HL31) as [Hd HmL].
  pose proof (digits_of_square L ltac:(lia)) as Hh.
  pose proof (Zdigits2_bounds (L * L) ltac:(lia)) as [Slo Shi].
  set (d := Zdigits2 L) in *. set (d2 := Zdigits2 (L * L)) in *.
  assert (Hd26 : d <= 26).
  { destruct (Z_lt_le_dec 26 d); [|lia].
    pose proof (Zdigits2_bounds L ltac:(lia)) as [Blo _]. fold d in Blo.
    assert (2 ^ 26 <= 2 ^ (d - 1)) by (apply Z.pow_le_mono_r; lia).
    change (2 ^ 26) with 67108864 in *. lia. }
  assert (Hd2 : 2 * d - 1 <= d2 <= 2 * d)
    by (rewrite Z.div2_div in Hh; Z.div_mod_to_equations; lia).
  assert (Hm2 : 2 ^ 52 <= L * L * 2 ^ (53 - d2) < 2 ^ 53).
  { assert (E52 : 2 ^ 52 = 2 ^ (d2 - 1) * 2 ^ (53 - d2))
      by (rewrite <- Z.pow_add_r by lia; f_equal; lia).
    assert (E53 : 2 ^ 53 = 2 ^ d2 * 2 ^ (53 - d2))
      by (rewrite <- Z.pow_add_r by lia; f_equal; lia).
    rewrite E52, E53. pose proof (pow2_pos (53 - d2) ltac:(lia)). nia. }
  unfold PyFloat.pow_half, PyFloat.prec, PyFloat.emax, SFsqrt, SFsqrt_core_binary.
  cbn [Zdigits2].
  rewrite (digits2_pos_unique _ 53) by (rewrite Z2Pos.id by lia; done).
  rewrite Z2Pos.id by lia. rewrite fexp_53.
  replace (53 + (d2 - 53) + 1) with (d2 + 1) by lia.
  change (IntDef.Z.div2 (d2 + 1)) with (Z.div2 (d2 + 1)). rewrite Hh.
  change (IntDef.Z.div2 (d2 - 53)) with (Z.div2 (d2 - 53)).
  assert (Hdiv2 : Z.div2 (d2 - 53) = d - 27)
    by (rewrite Z.div2_div; rewrite Z.div2_div in Hh; Z.div_mod_to_equations; lia).
  rewrite Hdiv2.
  replace (Z.min (Z.max (d - 53) (-1074)) (d - 27)) with (d - 53) by lia.
  set (s := d2 - 53 - 2 * (d - 53)).
  assert (Hs : 52 <= s <= 53) by (unfold s; lia).
  set (Q := L * 2 ^ (53 - d)) in *.
  assert (Hshift : match s with
                   | 0 => L * L * 2 ^ (53 - d2)
                   | Z.pos _ => Z.shiftl (L * L * 2 ^ (53 - d2)) s
                   | Z.neg _ => 0
                   end = Q * Q).
  { destruct s as [|p|p] eqn:Es; [lia| |lia]. rewrite <- Es.
    rewrite Z.shiftl_mul_pow2 by lia. unfold Q.
    replace (L * L * 2 ^ (53 - d2) * 2 ^ s) with (L * L * (2 ^ (53 - d2) * 2 ^ s)) by ring.
    replace (L * 2 ^ (53 - d) * (L * 2 ^ (53 - d)))
      with (L * L * (2 ^ (53 - d) * 2 ^ (53 - d))) by ring.
    rewrite <- !Z.pow_add_r by lia. do 2 f_equal. unfold s. lia. }
  rewrite Hshift.
  change (IntDef.Z.sqrtrem (Q * Q)) with (Z.sqrtrem (Q * Q)).
  rewrite sqrtrem_square by lia.
  change (0 =? 0) with true. cbv iota.
  by rewrite binary_round_aux_exact by lia.
Qed.

Lemma of_int_zero : PyFloat.of_int 0 = Ok (S754_zero false).
Proof. reflexivity. Qed.

(** [num_dots] of a horizontal or vertical segment of length [L]. *)
Lemma num_dots_of_length (start_xy end_xy : Z * Z) (width gap L : Z) :
  (fst end_xy - fst start_xy) ^ 2 + (snd end_xy - snd start_xy) ^ 2 = L * L ->
  0 <= L < 2 ^ 26 -> 0 < width + gap < 2 ^ 31 ->
  num_dots start_xy end_xy width gap = Ok (L / (width + gap)).
Proof.
  intros Hsq HL Hstep. unfold num_dots. rewrite Hsq.
  destruct (Z.eq_dec L 0) as [->|HL0].
  - change (PyFloat.of_int (0 * 0)) with (@Ok PyFloat.float (S754_zero false)).
    cbn [mbind result_bind].
    destruct (of_int_small_nonzero (width + gap)) as (s & m & e & ->); [lia| |].
    { change (2 ^ 31) with 2147483648 in Hstep.
      change (2 ^ 53) with 9007199254740992. lia. }
    reflexivity.
  - destruct (pow_half_square L ltac:(lia)) as (x & y & -> & Hy & Hsqrt).
    cbn [mbind result_bind]. rewrite Hsqrt.
    assert (HL31 : 0 < L < 2 ^ 31).
    { change (2 ^ 26) with 67108864 in HL. change (2 ^ 31) with 2147483648. lia. }
    destruct (to_int_truediv_dims L (width + gap) HL31 Hstep)
      as (af & bf & q & Haf & -> & Hq & Hint).
    rewrite Hy in Haf. injection Haf as <-.
    cbn [mbind result_bind]. rewrite Hq. cbn [mbind result_bind]. exact Hint.
Qed.

(** Division of two finite floats of any sign. *)
Lemma SFdiv_finite (sx sy : bool) (m1 m2 : positive) (e1 e2 : Z) :
  let e' := Z.min (fexp 53 1024 (Z.pos (digits2_pos m1) + e1 - (Z.pos (digits2_pos m2) + e2)))
                  (e1 - e2) in
  let N := Z.pos m1 * 2 ^ (e1 - e2 - e') in
  SFdiv 53 1024 (S754_finite sx m1 e1) (S754_finite sy m2 e2)
  = binary_round_aux 53 1024 (xorb sx sy) (N / Z.pos m2) e' (loc_of N (Z.pos m2)).
Proof.
  intros e' N. unfold SFdiv, SFdiv_core_binary. cbn [Zdigits2].
  fold e'.
  assert (Hs : 0 <= e1 - e2 - e') by (unfold e'; lia).
  assert (HN : (match e1 - e2 - e' with
                | 0 => Z.pos m1
                | Z.pos _ => Z.shiftl (Z.pos m1) (e1 - e2 - e')
                | Z.neg _ => 0
                end) = N).
  { unfold N. destruct (e1 - e2 - e') as [|p|p] eqn:E; [| |lia].
    - by rewrite Z.pow_0_r, Z.mul_1_r.
    - by rewrite Z.shiftl_mul_pow2 by lia. }
  rewrite HN.
  unfold Z.div, Z.modulo.
  pose proof (new_location_loc_of N (Z.pos m2) ltac:(lia)) as HL.
  unfold Z.modulo in HL.
  destruct (Z.div_eucl N (Z.pos m2)) as [q r]. by rewrite HL.
Qed.

Lemma of_int_returns (n : Z) :
  Z.abs n < 2 ^ 53 -> exists x, PyFloat.of_int n = Ok x.
Proof.
  intros Hn. destruct (Z.eq_dec n 0) as [->|Hn0]; [by eexists|].
  destruct (of_int_small_nonzero n Hn0 Hn) as (s & m & e & ->). by eexists.
Qed.

(** [a / b] on integers below [2 ^ 53] does not overflow. *)
Lemma int_truediv_returns (a b : Z) :
  Z.abs a < 2 ^ 53 -> 0 < b < 2 ^ 53 ->
  exists q, PyFloat.int_truediv a b = Ok q.
Proof.
  intros Ha Hb.
  assert (Hgen : forall (sa : bool) (pa pb : positive),
             Z.pos pa < 2 ^ 53 -> Z.pos pb < 2 ^ 53 ->
             PyFloat.is_finite
               (SFdiv 53 1024 (S754_finite sa pa 0) (S754_finite false pb 0)) = true).
  { intros sa pa pb Hpa Hpb.
    pose proof (digits2_pos_bounds pa) as [Alo Ahi].
    pose proof (digits2_pos_bounds pb) as [Blo Bhi].
    rewrite SFdiv_finite, fexp_53.
    set (da := Z.pos (digits2_pos pa)) in *. set (db := Z.pos (digits2_pos pb)) in *.
    assert (Hda : 1 <= da <= 53).
    { split; [unfold da; lia|]. destruct (Z_lt_le_dec 53 da); [|lia].
      assert (2 ^ 53 <= 2 ^ (da - 1)) by (apply Z.pow_le_mono_r; lia). lia. }
    assert (Hdb : 1 <= db <= 53).
    { split; [unfold db; lia|]. destruct (Z_lt_le_dec 53 db); [|lia].
      assert (2 ^ 53 <= 2 ^ (db - 1)) by (apply Z.pow_le_mono_r; lia). lia. }
    replace (Z.min (Z.max (da + 0 - (db + 0) - 53) (-1074)) (0 - 0)) with (da - db - 53) by lia.
    replace (0 - 0 - (da - db - 53)) with (53 + db - da) by lia.
    set (S := 2 ^ (53 + db - da)). set (N := Z.pos pa * S).
    assert (HS : 0 < S) by (apply pow2_pos; lia).
    assert (ES1 : 2 ^ (da - 1) * S = 2 ^ 52 * 2 ^ db)
      by (unfold S; rewrite <- !Z.pow_add_r by lia; f_equal; lia).
    assert (ES2 : 2 ^ da * S = 2 ^ 54 * 2 ^ (db - 1))
      by (unfold S; rewrite <- !Z.pow_add_r by lia; f_equal; lia).
    assert (Hqlo : 2 ^ 52 <= N / Z.pos pb).
    { apply Z.div_le_lower_bound; [lia|]. unfold N.
      pose proof (pow2_pos 52 ltac:(lia)). nia. }
    assert (Hqhi : N / Z.pos pb < 2 ^ 54).
    { apply Z.div_lt_upper_bound; [lia|]. unfold N.
      pose proof (pow2_pos 54 ltac:(lia)). nia. }
    assert (Hdig : Zdigits2 (N / Z.pos pb) <= 54).
    { destruct (Z_lt_le_dec 54 (Zdigits2 (N / Z.pos pb))); [|lia].
      pose proof (Zdigits2_bounds (N / Z.pos pb)
                    ltac:(change (2 ^ 52) with 4503599627370496 in Hqlo; lia)) as [Dlo _].
      assert (2 ^ 54 <= 2 ^ (Zdigits2 (N / Z.pos pb) - 1))
        by (apply Z.pow_le_mono_r; lia). lia. }
    assert (Hdig53 : 53 <= Zdigits2 (N / Z.pos pb)).
    { destruct (Z_lt_le_dec (Zdigits2 (N / Z.pos pb)) 53); [|lia].
      pose proof (Zdigits2_bounds (N / Z.pos pb)
                    ltac:(change (2 ^ 52) with 4503599627370496 in Hqlo; lia)) as [_ Dhi].
      assert (2 ^ Zdigits2 (N / Z.pos pb) <= 2 ^ 52)
        by (apply Z.pow_le_mono_r; lia). lia. }
    destruct (binary_round_aux_rounds (xorb sa false) N (Z.pos pb) (da - db - 53))
      as (m3 & e3 & -> & _ & He3 & _); [lia|done|lia|].
    by assert ((e3 <=? 971) = true) as -> by (apply Z.leb_le; lia). }
  unfold PyFloat.int_truediv, PyFloat.prec, PyFloat.emax.
  destruct b as [|pb|pb]; [lia| |lia].
  destruct a as [|pa|pa]; [by eexists| |].
  - change (Z.to_pos (Z.abs (Z.pos pa))) with pa.
    change (Z.to_pos (Z.abs (Z.pos pb))) with pb.
    change (Z.pos pb <? 0) with false.
    rewrite Hgen by lia. by eexists.
  - change (Z.to_pos (Z.abs (Z.neg pa))) with pa.
    change (Z.to_pos (Z.abs (Z.pos pb))) with pb.
    change (Z.pos pb <? 0) with false.
    rewrite Hgen by lia. by eexists.
Qed.

Lemma dash_start_returns (start dist i n : Z) :
  Z.abs start < 2 ^ 53 -> Z.abs (dist * i) < 2 ^ 53 -> 0 < n < 2 ^ 53 ->
  exists x, dash_start start dist i n = Ok x.
Proof.
  intros Hs Hd Hn. unfold dash_start.
  destruct (int_truediv_returns (dist * i) n Hd Hn) as (q & ->).
  destruct (of_int_returns start Hs) as (s & ->).
  by eexists.
Qed.

Lemma dash_end_returns (start dist i n : Z) :
  Z.abs start < 2 ^ 53 -> Z.abs dist < 2 ^ 53 -> Z.abs i < 2 ^ 53 -> 0 < n < 2 ^ 53 ->
  exists x, dash_end start dist i n = Ok x.
Proof.
  intros Hs Hd Hi Hn. unfold dash_end.
  destruct (of_int_returns i Hi) as (fi & ->).
  destruct (of_int_returns dist Hd) as (fd & ->).
  destruct (of_int_small_nonzero n ltac:(lia) ltac:(lia)) as (s & m & e & ->).
  destruct (of_int_returns start Hs) as (fs & ->).
  by eexists.
Qed.

Lemma for_each_returns {A S : Type} (l : list A) (body : A -> S -> result S) (s : S) :
  (forall a s', a ∈ l -> exists s'', body a s' = Ok s'') ->
  exists s', for_each l body s = Ok s'.
Proof.
  revert s. induction l as [|a l IH]; intros s Hbody; cbn [for_each]; [by eexists|].
  destruct (Hbody a s ltac:(left)) as (s1 & ->). cbn [mbind result_bind].
  apply IH. intros a' s' Hin. apply Hbody. by right.
Qed.

(** Once the number of dots is known and the coordinates are in range, the
    loop of [draw_dotted_line] raises nothing. *)
Lemma draw_dotted_line_returns (draw : Sheet) (start_xy end_xy : Z * Z)
    (fill : Color) (width gap n : Z) :
  num_dots start_xy end_xy width gap = Ok n ->
  n < 2 ^ 53 ->
  Z.abs (fst start_xy) < 2 ^ 53 -> Z.abs (snd start_xy) < 2 ^ 53 ->
  Z.abs (fst end_xy - fst start_xy) < 2 ^ 53 ->
  Z.abs (snd end_xy - snd start_xy) < 2 ^ 53 ->
  Z.abs (fst end_xy - fst start_xy) * n < 2 ^ 53 ->
  Z.abs (snd end_xy - snd start_xy) * n < 2 ^ 53 ->
  exists draw', draw_dotted_line draw start_xy end_xy fill width gap = Ok draw'.
Proof.
  intros Hn Hn53 Hx Hy Hdx Hdy Hpx Hpy. unfold draw_dotted_line. rewrite Hn.
  cbn [mbind result_bind].
  apply for_each_returns. intros i draw' Hi. apply elem_of_range in Hi.
  assert (Hprod : forall d, Z.abs d * n < 2 ^ 53 -> Z.abs (d * i) < 2 ^ 53).
  { intros d Hd. rewrite Z.abs_mul, (Z.abs_eq i) by lia.
    pose proof (Z.abs_nonneg d). nia. }
  destruct (dash_start_returns (fst start_xy) (fst end_xy - fst start_xy) i n)
    as (x0 & ->); [done|by apply Hprod|lia|].
  destruct (dash_start_returns (snd start_xy) (snd end_xy - snd start_xy) i n)
    as (y0 & ->); [done|by apply Hprod|lia|].
  destruct (dash_end_returns (fst start_xy) (fst end_xy - fst start_xy) i n)
    as (x1 & ->); [done|done|lia|lia|].
  destruct (dash_end_returns (snd start_xy) (snd end_xy - snd start_xy) i n)
    as (y1 & ->); [done|done|lia|lia|].
  by eexists.
Qed.

Lemma square_of_abs (a b : Z) : a ^ 2 + (b - b) ^ 2 = Z.abs a * Z.abs a.
Proof. rewrite Z.sub_diag, !Z.pow_2_r. destruct (Z.abs_spec a) as [[_ ->]|[_ ->]]; ring. Qed.

Lemma square_of_abs' (a b : Z) : (b - b) ^ 2 + a ^ 2 = Z.abs a * Z.abs a.
Proof. rewrite Z.add_comm. apply square_of_abs. Qed.

Lemma abs_le_of_squares (a b L : Z) :
  0 <= L -> a * a + b * b = L * L -> Z.abs a <= L.
Proof.
  intros HL Hsq. destruct (Z_le_gt_dec (Z.abs a) L); [done|]. exfalso.
  assert (H1 : L * L < Z.abs a * Z.abs a) by nia.
  assert (H2 : Z.abs a * Z.abs a = a * a)
    by (destruct (Z.abs_spec a) as [[_ ->]|[_ ->]]; ring).
  assert (H3 : 0 <= b * b) by nia.
  lia.
Qed.

Lemma pasted_images_with_lines (s s' : Sheet) (dashes : list Op) :
  sheet_ops s' = sheet_ops s ++ dashes -> forallb is_line dashes = true ->
  pasted_images s' = pasted_images s.
Proof.
  intros Hops Hlines. unfold pasted_images. rewrite Hops, flat_map_app.
  assert (Hnil : flat_map (fun op => match op with
                                     | OpPaste im xy => [(im, xy)]
                                     | _ => []
                                     end) dashes = []).
  { clear Hops. induction dashes as [|[| |] dashes IH]; cbn in *; try done.
    by apply IH. }
  by rewrite Hnil, app_nil_r.
Qed.

(** The dashes of a segment of integer length [L]. *)
Lemma draw_dotted_line_integer_length (draw : Sheet) (start_xy end_xy : Z * Z)
    (fill : Color) (width gap L : Z) :
  (fst end_xy - fst start_xy) ^ 2 + (snd end_xy - snd start_xy) ^ 2 = L * L ->
  0 <= L < 2 ^ 26 ->
  Z.abs (fst start_xy) < 2 ^ 53 -> Z.abs (snd start_xy) < 2 ^ 53 ->
  0 < width + gap < 2 ^ 31 ->
  exists draw' dashes,
    draw_dotted_line draw start_xy end_xy fill width gap = Ok draw'
    /\ num_dots start_xy end_xy width gap = Ok (L / (width + gap))
    /\ sheet_ops draw' = sheet_ops draw ++ dashes
    /\ Z.of_nat (length dashes) = L / (width + gap)
    /\ forallb is_line dashes = true
    /\ sheet_size draw' = sheet_size draw.
Proof.
  intros Hsq HL Hx Hy Hstep.
  pose proof (num_dots_of_length start_xy end_xy width gap L Hsq HL Hstep) as Hn.
  assert (Hk : 0 <= L / (width + gap) <= L).
  { split; [apply Z.div_pos; lia|]. apply Z.div_le_upper_bound; nia. }
  assert (Hdx : Z.abs (fst end_xy - fst start_xy) <= L).
  { rewrite !Z.pow_2_r in Hsq. eapply abs_le_of_squares; [lia|exact Hsq]. }
  assert (Hdy : Z.abs (snd end_xy - snd start_xy) <= L).
  { rewrite !Z.pow_2_r, Z.add_comm in Hsq. eapply abs_le_of_squares; [lia|exact Hsq]. }
  assert (B26 : 2 ^ 26 = 67108864) by reflexivity.
  assert (B53 : 2 ^ 53 = 9007199254740992) by reflexivity.
  pose proof (Z.abs_nonneg (fst end_xy - fst start_xy)).
  pose proof (Z.abs_nonneg (snd end_xy - snd start_xy)).
  assert (HLL : L * L < 2 ^ 53).
  { rewrite B53. rewrite B26 in HL.
    assert (L * L <= 67108863 * 67108863) by (apply Z.mul_le_mono_nonneg; lia). lia. }
  assert (Hmul : forall d, 0 <= d <= L -> d * (L / (width + gap)) < 2 ^ 53).
  { intros d Hd.
    assert (d * (L / (width + gap)) <= L * L) by (apply Z.mul_le_mono_nonneg; lia). lia. }
  assert (HL53 : L < 2 ^ 53) by (rewrite B53; rewrite B26 in HL; lia).
  destruct (draw_dotted_line_returns draw start_xy end_xy fill width gap _ Hn)
    as (draw' & Hdraw); [lia|done|done|lia|lia|apply Hmul; lia|apply Hmul; lia|].
  destruct (draw_dotted_line_dashes draw draw' start_xy end_xy fill width gap _ Hn Hdraw)
    as (dashes & Hops & Hlen & Hlines & Hsize).
  exists draw', dashes. repeat split; try done. lia.
Qed.





(** The sign given to [binary_round_aux] is the sign of a finite result. *)
Lemma binary_round_aux_sign (sx s : bool) (mx ex : Z) (lx : location) (m : positive) (e : Z) :
  binary_round_aux 53 1024 sx mx ex lx = S754_finite s m e -> s = sx.
Proof.
  unfold binary_round_aux.
  destruct (shr_fexp 53 1024 mx ex lx) as [mrs' e'].
  destruct (shr_fexp 53 1024 _ e' loc_Exact) as [mrs'' e''].
  destruct (shr_m mrs'') as [|p|p]; [done| |done].
  destruct (e'' <=? 1024 - 53); [|done]. by intros [= <- _ _].
Qed.

(** The float of a non-negative integer carries no minus sign. *)
Lemma of_int_nonneg (n : Z) (x : PyFloat.float) :
  0 <= n -> PyFloat.of_int n = Ok x ->
  x = S754_zero false \/ exists m e, x = S754_finite false m e.
Proof.
  intros Hn. destruct (Z.eq_dec n 0) as [->|Hn0].
  - intros [= <-]. by left.
  - unfold PyFloat.of_int, PyFloat.prec, PyFloat.emax.
    destruct (binary_normalize_nonzero n Hn0) as (m & e & -> & _).
    assert ((n <? 0) = false) as -> by (apply Z.ltb_ge; lia).
    destruct (e <=? 971); cbn [PyFloat.is_finite]; [|done].
    intros [= <-]. right. by eexists _, _.
Qed.

Lemma of_int_negative (n : Z) (x : PyFloat.float) :
  n < 0 -> PyFloat.of_int n = Ok x -> exists m e, x = S754_finite true m e.
Proof.
  intros Hn. unfold PyFloat.of_int, PyFloat.prec, PyFloat.emax.
  destruct (binary_normalize_nonzero n ltac:(lia)) as (m & e & -> & _).
  assert ((n <? 0) = true) as -> by (apply Z.ltb_lt; lia).
  destruct (e <=? 971); cbn [PyFloat.is_finite]; [|done].
  intros [= <-]. by eexists _, _.
Qed.

Lemma of_int_positive (n : Z) (x : PyFloat.float) :
  0 < n -> PyFloat.of_int n = Ok x -> exists m e, x = S754_finite false m e.
Proof.
  intros Hn Hx. destruct (of_int_nonneg n x ltac:(lia) Hx) as [->|H]; [|done].
  destruct (of_int_nonzero n _ ltac:(lia) Hx) as (s & m & e & [=]).
Qed.

(** The square root of a float without minus sign has none either. *)
Lemma pow_half_sign (x : PyFloat.float) (s : bool) (m : positive) (e : Z) :
  (x = S754_zero false \/ exists m' e', x = S754_finite false m' e') ->
  PyFloat.pow_half x = S754_finite s m e -> s = false.
Proof.
  intros [->|(m' & e' & ->)]; [done|].
  unfold PyFloat.pow_half, SFsqrt.
  destruct (SFsqrt_core_binary _ _ _ _) as [[mz ez] lz].
  apply binary_round_aux_sign.
Qed.

Lemma to_int_sign (s : bool) (m : positive) (e n : Z) :
  PyFloat.to_int (S754_finite s m e) = Ok n ->
  if s then n <= 0 else 0 <= n.
Proof.
  unfold PyFloat.to_int. intros [= <-].
  assert (Ha : 0 <= match e with
                    | Z.neg p => Z.pos m / 2 ^ Z.pos p
                    | _ => Z.pos m * 2 ^ e
                    end).
  { destruct e as [|p|p].
    - lia.
    - pose proof (pow2_pos (Z.pos p) ltac:(lia)). nia.
    - apply Z.div_pos; [lia|]. apply pow2_pos. lia. }
  destruct s; lia.
Qed.

(** The number of dots has the sign of the step: a negative
    [width + gap] never gives a positive count, a positive one never a
    negative count. *)
Lemma num_dots_sign (start_xy end_xy : Z * Z) (width gap n : Z) :
  num_dots start_xy end_xy width gap = Ok n ->
  (width + gap < 0 -> n <= 0) /\ (0 < width + gap -> 0 <= n).
Proof.
  unfold num_dots.
  set (d2 := (fst end_xy - fst start_xy) ^ 2 + (snd end_xy - snd start_xy) ^ 2).
  assert (Hd2 : 0 <= d2) by (unfold d2; rewrite !Z.pow_2_r; nia).
  destruct (PyFloat.of_int d2) as [sq|] eqn:Hsq; [|done].
  cbn [mbind result_bind].
  destruct (PyFloat.of_int (width + gap)) as [step|] eqn:Hstep; [|done].
  cbn [mbind result_bind].
  pose proof (of_int_nonneg d2 sq Hd2 Hsq) as Hsign.
  pose proof (pow_half_sign sq) as Hroot. specialize (fun s m e => Hroot s m e Hsign).
  assert (Hcase : forall ss ms es, step = S754_finite ss ms es ->
            (q ← PyFloat.truediv (PyFloat.pow_half sq) step; PyFloat.to_int q) = Ok n ->
            if ss then n <= 0 else 0 <= n).
  { intros ss ms es -> . rewrite truediv_finite. cbn [mbind result_bind].
    destruct (PyFloat.pow_half sq) as [sl| | |sl ml el] eqn:Hlen.
    - unfold SFdiv. intros [= <-]. by destruct ss.
    - unfold SFdiv. done.
    - unfold SFdiv. done.
    - rewrite (Hroot sl ml el eq_refl).
      unfold PyFloat.prec, PyFloat.emax. rewrite SFdiv_finite. cbn [xorb].
      destruct (binary_round_aux _ _ _ _ _ _) as [sr| | |sr mr er] eqn:Hq.
      + intros [= <-]. by destruct ss.
      + done.
      + done.
      + apply binary_round_aux_sign in Hq. subst sr. apply to_int_sign. }
  intros Hn. split; intros Hs.
  - destruct (of_int_negative _ _ Hs Hstep) as (ms & es & ->).
    by apply (Hcase true ms es).
  - destruct (of_int_positive _ _ Hs Hstep) as (ms & es & ->).
    by apply (Hcase false ms es).
Qed.

(** Every location above a non-negative integer is that of a quotient. *)
Lemma location_as_quotient (m : Z) (l : location) :
  0 <= m -> exists N D, 0 < D /\ N / D = m /\ loc_of N D = l.
Proof.
  intros Hm. unfold loc_of. destruct l as [|[| |]].
  - exists m, 1. by rewrite Z.div_1_r, Z.mod_1_r.
  - exists (2 * m + 1), 2.
    assert (Ed : (2 * m + 1) / 2 = m) by (symmetry; apply Z.div_unique with (r := 1); lia).
    assert (Er : (2 * m + 1) mod 2 = 1) by (symmetry; apply Z.mod_unique with (q := m); lia).
    by rewrite Ed, Er.
  - exists (4 * m + 1), 4.
    assert (Ed : (4 * m + 1) / 4 = m) by (symmetry; apply Z.div_unique with (r := 1); lia).
    assert (Er : (4 * m + 1) mod 4 = 1) by (symmetry; apply Z.mod_unique with (q := m); lia).
    by rewrite Ed, Er.
  - exists (4 * m + 3), 4.
    assert (Ed : (4 * m + 3) / 4 = m) by (symmetry; apply Z.div_unique with (r := 3); lia).
    assert (Er : (4 * m + 3) mod 4 = 3) by (symmetry; apply Z.mod_unique with (q := m); lia).
    by rewrite Ed, Er.
Qed.

(** Rounding a mantissa of 53 digits or more, whatever lies beyond it. *)
Lemma binary_round_aux_shape (sx : bool) (m e : Z) (l : location) :
  2 ^ 52 <= m ->
  let n := Zdigits2 m - 53 in
  -1074 <= e + n ->
  exists m3 e3,
    binary_round_aux 53 1024 sx m e l
    = (if e3 <=? 971 then S754_finite sx m3 e3 else S754_infinity sx)
    /\ 2 ^ 52 <= Z.pos m3 < 2 ^ 53
    /\ e + n <= e3 <= e + n + 1.
Proof.
  intros Hm n Hlo.
  destruct (location_as_quotient m l) as (N & D & HD & <- & <-).
  { pose proof (pow2_pos 52 ltac:(lia)). lia. }
  destruct (binary_round_aux_rounds sx N D e HD Hm Hlo) as (m3 & e3 & Hr & Hm3 & He3 & _).
  by exists m3, e3.
Qed.

(** The square root of the float of a positive integer below [2 ^ 51]. *)
Lemma pow_half_of_int_shape (d2 : Z) :
  0 < d2 < 2 ^ 51 ->
  exists x mL eL,
    PyFloat.of_int d2 = Ok x
    /\ PyFloat.pow_half x = S754_finite false mL eL
    /\ 2 ^ 52 <= Z.pos mL < 2 ^ 53
    /\ -53 <= eL <= -26.
Proof.
  intros Hd2.
  assert (B51 : 2 ^ 51 = 2251799813685248) by reflexivity.
  assert (B53 : 2 ^ 53 = 9007199254740992) by reflexivity.
  assert (Hn : 0 < d2 < 2 ^ 53) by lia.
  pose proof (Zdigits2_bounds d2 ltac:(lia)) as [Slo Shi].
  set (dd := Zdigits2 d2) in *.
  assert (Hdd : 1 <= dd <= 51).
  { split; [unfold dd; destruct d2; cbn; lia|].
    destruct (Z_lt_le_dec 51 dd); [|lia].
    assert (2 ^ 51 <= 2 ^ (dd - 1)) by (apply Z.pow_le_mono_r; lia). lia. }
  assert (Hm2 : 2 ^ 52 <= d2 * 2 ^ (53 - dd) < 2 ^ 53).
  { assert (E52 : 2 ^ 52 = 2 ^ (dd - 1) * 2 ^ (53 - dd))
      by (rewrite <- Z.pow_add_r by lia; f_equal; lia).
    assert (E53 : 2 ^ 53 = 2 ^ dd * 2 ^ (53 - dd))
      by (rewrite <- Z.pow_add_r by lia; f_equal; lia).
    rewrite E52, E53. pose proof (pow2_pos (53 - dd) ltac:(lia)). nia. }
  enough (exists mL eL,
            PyFloat.pow_half (S754_finite false (Z.to_pos (d2 * 2 ^ (53 - dd))) (dd - 53))
            = S754_finite false mL eL
            /\ 2 ^ 52 <= Z.pos mL < 2 ^ 53 /\ -53 <= eL <= -26)
    as (mL & eL & Hp & HmL & HeL).
  { eexists _, mL, eL. split; [|done].
    unfold PyFloat.of_int, PyFloat.prec, PyFloat.emax.
    rewrite binary_normalize_small by done. reflexivity. }
  unfold PyFloat.pow_half, PyFloat.prec, PyFloat.emax, SFsqrt, SFsqrt_core_binary.
  cbn [Zdigits2].
  rewrite (digits2_pos_unique _ 53) by (rewrite Z2Pos.id by lia; done).
  rewrite Z2Pos.id by lia. rewrite fexp_53.
  replace (53 + (dd - 53) + 1) with (dd + 1) by lia.
  change (IntDef.Z.div2 (dd + 1)) with (Z.div2 (dd + 1)).
  change (IntDef.Z.div2 (dd - 53)) with (Z.div2 (dd - 53)).
  set (h := Z.div2 (dd + 1)).
  assert (Hh : 2 * h <= dd + 1 <= 2 * h + 1)
    by (unfold h; rewrite Z.div2_div; Z.div_mod_to_equations; lia).
  assert (Hdiv2 : Z.div2 (dd - 53) = h - 27)
    by (unfold h; rewrite !Z.div2_div; Z.div_mod_to_equations; lia).
  rewrite Hdiv2.
  replace (Z.min (Z.max (h - 53) (-1074)) (h - 27)) with (h - 53) by lia.
  set (s := dd - 53 - 2 * (h - 53)).
  assert (Hs : 52 <= s <= 53) by (unfold s; lia).
  set (m := d2 * 2 ^ (53 - dd)) in *.
  set (m' := match s with
             | 0 => m
             | Z.pos _ => Z.shiftl m s
             | Z.neg _ => 0
             end).
  assert (Hm' : 2 ^ 104 <= m' < 2 ^ 106).
  { assert (Em' : m' = m * 2 ^ s).
    { unfold m'. destruct s as [|p|p] eqn:Es; [lia| |lia].
      by rewrite Z.shiftl_mul_pow2 by lia. }
    rewrite Em'.
    assert (E104 : 2 ^ 104 = 2 ^ 52 * 2 ^ 52) by reflexivity.
    assert (E106 : 2 ^ 106 = 2 ^ 53 * 2 ^ 53) by reflexivity.
    assert (Hps : 2 ^ 52 <= 2 ^ s <= 2 ^ 53)
      by (split; apply Z.pow_le_mono_r; lia).
    rewrite E104, E106. split.
    - apply Z.mul_le_mono_nonneg; lia.
    - apply Z.lt_le_trans with (2 ^ 53 * 2 ^ s).
      + apply Z.mul_lt_mono_pos_r; [apply pow2_pos|]; lia.
      + apply Z.mul_le_mono_nonneg_l; lia. }
  change (IntDef.Z.sqrtrem m') with (Z.sqrtrem m').
  pose proof (Z.sqrtrem_spec m' ltac:(pose proof (pow2_pos 104 ltac:(lia)); lia)) as Hspec.
  destruct (Z.sqrtrem m') as [q r]. destruct Hspec as [Eq Br].
  assert (Hq : 2 ^ 52 <= q < 2 ^ 53).
  { assert (E104 : 2 ^ 104 = 2 ^ 52 * 2 ^ 52) by reflexivity.
    assert (E106 : 2 ^ 106 = 2 ^ 53 * 2 ^ 53) by reflexivity.
    pose proof (pow2_pos 52 ltac:(lia)). pose proof (pow2_pos 53 ltac:(lia)).
    split.
    - destruct (Z_lt_le_dec q (2 ^ 52)); [|done]. exfalso.
      assert ((q + 1) * (q + 1) <= 2 ^ 52 * 2 ^ 52) by (apply Z.mul_le_mono_nonneg; lia).
      lia.
    - destruct (Z_lt_le_dec q (2 ^ 53)); [done|]. exfalso.
      assert (2 ^ 53 * 2 ^ 53 <= q * q) by (apply Z.mul_le_mono_nonneg; lia).
      lia. }
  assert (Hdig : Zdigits2 q = 53).
  { apply Zdigits2_unique; [done|]. pose proof (pow2_pos 52 ltac:(lia)). lia. }
  destruct (binary_round_aux_shape false q (h - 53)
              (if r =? 0 then loc_Exact else loc_Inexact (if r <=? q then Lt else Gt)))
    as (m3 & e3 & -> & Hm3 & He3); [lia|rewrite Hdig; lia|].
  rewrite Hdig in He3.
  assert ((e3 <=? 971) = true) as -> by (apply Z.leb_le; lia).
  exists m3, e3. split; [reflexivity|]. split; [done|lia].
Qed.

(** Rounding does not look at the sign. *)
Lemma binary_round_aux_flip (sx sy : bool) (mx ex : Z) (lx : location)
    (m : positive) (e : Z) :
  binary_round_aux 53 1024 sx mx ex lx = S754_finite sx m e ->
  binary_round_aux 53 1024 sy mx ex lx = S754_finite sy m e.
Proof.
  unfold binary_round_aux.
  destruct (shr_fexp 53 1024 mx ex lx) as [mrs' e'].
  destruct (shr_fexp 53 1024 _ e' loc_Exact) as [mrs'' e''].
  destruct (shr_m mrs'') as [|p|p]; [done| |done].
  destruct (e'' <=? 1024 - 53); [|done]. by intros [= <- <-].
Qed.

(** [float(-n)] is [-float(n)]. *)
Lemma of_int_opp (n : Z) (m : positive) (e : Z) :
  0 < n -> PyFloat.of_int n = Ok (S754_finite false m e) ->
  PyFloat.of_int (- n) = Ok (S754_finite true m e).
Proof.
  intros Hn. destruct n as [|p|p]; [lia| |lia].
  change (- Z.pos p) with (Z.neg p).
  unfold PyFloat.of_int, PyFloat.prec, PyFloat.emax.
  cbn [binary_normalize]. unfold binary_round.
  destruct (shl_align p 0 _) as [mz ez].
  destruct (binary_round_aux 53 1024 false (Z.pos mz) ez loc_Exact)
    as [s0| | |s0 m0 e0] eqn:E; cbn [PyFloat.is_finite]; try done.
  intros [= -> -> ->].
  by rewrite (binary_round_aux_flip false true _ _ _ _ _ E).
Qed.

(** The quotient of such a length by a non-zero step truncates to a count
    below [2 ^ 28] in absolute value. *)
Lemma truediv_length_step (mL : positive) (eL step : Z) :
  2 ^ 52 <= Z.pos mL < 2 ^ 53 -> -53 <= eL <= -26 ->
  step <> 0 -> Z.abs step < 2 ^ 31 ->
  exists sf q n,
    PyFloat.of_int step = Ok sf
    /\ PyFloat.truediv (S754_finite false mL eL) sf = Ok q
    /\ PyFloat.to_int q = Ok n
    /\ Z.abs n < 2 ^ 28.
Proof.
  intros HmL HeL Hstep0 Hstep.
  assert (Ha : 0 < Z.abs step < 2 ^ 31) by lia.
  destruct (dim_normal (Z.abs step) Ha) as [Hds Hms].
  pose proof (of_int_dim (Z.abs step) Ha) as Hof.
  set (ds := Zdigits2 (Z.abs step)) in *. set (ms := Z.abs step * 2 ^ (53 - ds)) in *.
  assert (Hsf : PyFloat.of_int step
                = Ok (S754_finite (step <? 0) (Z.to_pos ms) (ds - 53))).
  { destruct (Z.abs_spec step) as [[Hs Eabs]|[Hs Eabs]].
    - rewrite Eabs in Hof. rewrite Hof.
      by assert ((step <? 0) = false) as -> by (apply Z.ltb_ge; lia).
    - apply of_int_opp in Hof; [|lia]. rewrite Eabs, Z.opp_involutive in Hof.
      rewrite Hof.
      by assert ((step <? 0) = true) as -> by (apply Z.ltb_lt; lia). }
  enough (exists n,
            PyFloat.to_int (SFdiv 53 1024 (S754_finite false mL eL)
                              (S754_finite (step <? 0) (Z.to_pos ms) (ds - 53))) = Ok n
            /\ Z.abs n < 2 ^ 28) as (n & Hn & Hrange).
  { eexists _, _, n. split; [exact Hsf|]. split; [done|]. by split. }
  rewrite SFdiv_finite.
  rewrite (digits2_pos_unique mL 53) by done.
  rewrite (digits2_pos_unique _ 53) by (rewrite Z2Pos.id by lia; done).
  rewrite !Z2Pos.id by lia. rewrite fexp_53.
  replace (Z.min (Z.max (53 + eL - (53 + (ds - 53)) - 53) (-1074)) (eL - (ds - 53)))
    with (eL - ds) by lia.
  replace (eL - (ds - 53) - (eL - ds)) with 53 by lia.
  set (N := Z.pos mL * 2 ^ 53).
  assert (B52 : 2 ^ 52 = 4503599627370496) by reflexivity.
  assert (B53 : 2 ^ 53 = 9007199254740992) by reflexivity.
  assert (B54 : 2 ^ 54 = 18014398509481984) by reflexivity.
  assert (Hqlo : 2 ^ 52 <= N / ms).
  { apply Z.div_le_lower_bound; [lia|]. unfold N. rewrite B52, B53 in *. nia. }
  assert (Hqhi : N / ms < 2 ^ 54).
  { apply Z.div_lt_upper_bound; [lia|]. unfold N. rewrite B52, B53, B54 in *. nia. }
  assert (Hdig : 53 <= Zdigits2 (N / ms) <= 54).
  { pose proof (Zdigits2_bounds (N / ms) ltac:(lia)) as [Dlo Dhi].
    split.
    - destruct (Z_lt_le_dec (Zdigits2 (N / ms)) 53); [|lia].
      assert (2 ^ Zdigits2 (N / ms) <= 2 ^ 52) by (apply Z.pow_le_mono_r; lia). lia.
    - destruct (Z_lt_le_dec 54 (Zdigits2 (N / ms))); [|lia].
      assert (2 ^ 54 <= 2 ^ (Zdigits2 (N / ms) - 1)) by (apply Z.pow_le_mono_r; lia). lia. }
  destruct (binary_round_aux_rounds (xorb false (step <? 0)) N ms (eL - ds))
    as (m3 & e3 & -> & Hm3 & He3 & _); try lia.
  assert (He3' : e3 <= -25) by lia.
  assert ((e3 <=? 971) = true) as -> by (apply Z.leb_le; lia).
  unfold PyFloat.to_int. destruct e3 as [|p|p]; [lia|lia|].
  eexists. split; [reflexivity|].
  assert (Hp : 2 ^ 25 <= 2 ^ Z.pos p) by (apply Z.pow_le_mono_r; lia).
  assert (B25 : 2 ^ 25 = 33554432) by reflexivity.
  assert (B28 : 2 ^ 28 = 268435456) by reflexivity.
  assert (Hlo : 0 <= Z.pos m3 / 2 ^ Z.pos p) by (apply Z.div_pos; lia).
  assert (Hhi : Z.pos m3 / 2 ^ Z.pos p < 2 ^ 28).
  { apply Z.div_lt_upper_bound; [lia|].
    apply Z.lt_le_trans with (2 ^ 53); [lia|].
    rewrite B53, B28. rewrite B25 in Hp. lia. }
  destruct (xorb false (step <? 0)); lia.
Qed.

(** For endpoints in pixel range and a non-zero step, [num_dots] returns a
    count below [2 ^ 28] in absolute value, with the sign of the step. *)
Lemma num_dots_returns (start_xy end_xy : Z * Z) (width gap : Z) :
  Z.abs (fst start_xy) < 2 ^ 24 -> Z.abs (snd start_xy) < 2 ^ 24 ->
  Z.abs (fst end_xy) < 2 ^ 24 -> Z.abs (snd end_xy) < 2 ^ 24 ->
  width + gap <> 0 -> Z.abs (width + gap) < 2 ^ 31 ->
  exists n, num_dots start_xy end_xy width gap = Ok n
    /\ Z.abs n < 2 ^ 28
    /\ (width + gap < 0 -> n <= 0)
    /\ (0 < width + gap -> 0 <= n).
Proof.
  intros Hx0 Hy0 Hx1 Hy1 Hstep0 Hstep.
  assert (B24 : 2 ^ 24 = 16777216) by reflexivity.
  assert (B28 : 2 ^ 28 = 268435456) by reflexivity.
  assert (B31 : 2 ^ 31 = 2147483648) by reflexivity.
  assert (B51 : 2 ^ 51 = 2251799813685248) by reflexivity.
  assert (B53 : 2 ^ 53 = 9007199254740992) by reflexivity.
  enough (exists n, num_dots start_xy end_xy width gap = Ok n /\ Z.abs n < 2 ^ 28)
    as (n & Hn & Hrange).
  { exists n. split; [done|]. split; [done|]. exact (num_dots_sign _ _ _ _ _ Hn). }
  unfold num_dots.
  set (dx := fst end_xy - fst start_xy). set (dy := snd end_xy - snd start_xy).
  assert (Hdx : Z.abs dx <= 33554430) by (unfold dx; lia).
  assert (Hdy : Z.abs dy <= 33554430) by (unfold dy; lia).
  assert (Hsq : forall d, Z.abs d <= 33554430 -> 0 <= d * d <= 33554430 * 33554430).
  { intros d Hd. replace (d * d) with (Z.abs d * Z.abs d)
      by (destruct (Z.abs_spec d) as [[_ ->]|[_ ->]]; ring).
    pose proof (Z.abs_nonneg d). split; [nia|]. apply Z.mul_le_mono_nonneg; lia. }
  rewrite !Z.pow_2_r.
  pose proof (Hsq dx Hdx). pose proof (Hsq dy Hdy).
  destruct (Z.eq_dec (dx * dx + dy * dy) 0) as [->|Hne].
  - change (PyFloat.of_int 0) with (@Ok PyFloat.float (S754_zero false)).
    cbn [mbind result_bind].
    destruct (of_int_small_nonzero (width + gap)) as (s & m & e & ->); [lia|lia|].
    exists 0. split; [reflexivity|lia].
  - destruct (pow_half_of_int_shape (dx * dx + dy * dy))
      as (x & mL & eL & -> & Hroot & HmL & HeL); [lia|].
    cbn [mbind result_bind]. rewrite Hroot.
    destruct (truediv_length_step mL eL (width + gap) HmL HeL Hstep0 Hstep)
      as (sf & q & n & -> & Hq & Hn & Hrange).
    cbn [mbind result_bind]. rewrite Hq. cbn [mbind result_bind].
    by exists n.
Qed.



(** X16: with a negative [width + gap] nothing is drawn and nothing is raised:
    for corners in pixel range [draw_dotted_line] and [draw_dotted_rectangle]
    return the sheet they were given. *)
Theorem negative_step_draws_nothing (draw : Sheet) (x0 y0 x1 y1 : Z)
    (fill : Color) (width gap : Z) :
  Z.abs x0 < 2 ^ 24 -> Z.abs y0 < 2 ^ 24 -> Z.abs x1 < 2 ^ 24 -> Z.abs y1 < 2 ^ 24 ->
  - 2 ^ 31 < width + gap < 0 ->
  draw_dotted_line draw (x0, y0) (x1, y1) fill width gap = Ok draw
  /\ draw_dotted_rectangle draw (x0, y0, x1, y1) fill width gap = Ok draw.
Proof.
  intros Hx0 Hy0 Hx1 Hy1 Hstep.
  assert (Hline : forall p q,
            Z.abs (fst p) < 2 ^ 24 -> Z.abs (snd p) < 2 ^ 24 ->
            Z.abs (fst q) < 2 ^ 24 -> Z.abs (snd q) < 2 ^ 24 ->
            draw_dotted_line draw p q fill width gap = Ok draw).
  { intros p q Hp1 Hp2 Hq1 Hq2.
    destruct (num_dots_returns p q width gap Hp1 Hp2 Hq1 Hq2)
      as (n & Hn & _ & Hneg & _); [lia|lia|].
    apply (draw_dotted_line_no_dots draw p q fill width gap n Hn). lia. }
  split; [by apply Hline|].
  unfold draw_dotted_rectangle.
  repeat (rewrite Hline by done; cbn [mbind result_bind]).
  reflexivity.
Qed.

Lemma negative_step_draws_nothing_witness :
  let draw := Sheet_new (1200, 1800) white in
  Z.abs 5 < 2 ^ 24 /\ Z.abs 7 < 2 ^ 24 /\ Z.abs 30 < 2 ^ 24 /\ Z.abs 40 < 2 ^ 24 /\
  - 2 ^ 31 < 2 + -10 < 0 /\
  draw_dotted_line draw (5, 7) (30, 40) VariantB.GUIDELINE_COLOR 2 (-10) = Ok draw
  /\ draw_dotted_rectangle draw (5, 7, 30, 40) VariantB.GUIDELINE_COLOR 2 (-10) = Ok draw.
Proof.
  split; [reflexivity|]. split; [reflexivity|]. split; [reflexivity|].
  split; [reflexivity|]. split; [split; reflexivity|].
  apply (negative_step_draws_nothing (Sheet_new (1200, 1800) white) 5 7 30 40
           VariantB.GUIDELINE_COLOR 2 (-10));
    try reflexivity; split; reflexivity.
Defined.
